(** * Lab_12: synthetic sales data, aggregation and report orchestration

    A shallow embedding of [Lab_12.py]: [generate_sales_data],
    the data part of [create_dashboard], [save_report] and [main].

    Conventions of the embedding.
    - A Python [str] is a list of Unicode code points ([N]).
    - A pandas [DataFrame] is the list of its rows, in row order.
    - A [Date] is a calendar day, counted in days since 1970-01-01.
      pandas keeps a timestamp as a 64-bit count of nanoseconds, and
      [date_range] refuses a range whose last date does not fit.
    - [Sales] and [Profit] are numpy [int64] values: [Z] with the
      wrap-around of 64-bit signed arithmetic written out.
    - An exception is a class (as far as the [except] clauses of [main]
      can tell classes apart) and the text [str(e)].
    - numpy's global generator is a state that is threaded through the
      calls; the generator itself is a parameter ([RandomState]) with the
      documented contract of its functions ([numpy_contract]). *)

From Stdlib Require Import String Ascii DecimalString.
From Stdlib Require Import ZArith NArith List Bool Lia.
From Stdlib Require Import Sorting.Sorted Sorting.Permutation.
Import ListNotations.
Open Scope Z_scope.

(* ================================================================= *)
(** ** Python strings *)

Module PyStr.

Definition char := N.
Definition str := list char.

(** An ASCII literal of the source as a [str]. *)
Definition lit (s : string) : str :=
  map N_of_ascii (list_ascii_of_string s).

(** [str.isspace] for one character: the white-space code points of
    Unicode, as CPython lists them. *)
Definition isspace (c : char) : bool :=
  (((9 <=? c) && (c <=? 13)) || ((28 <=? c) && (c <=? 32))
   || (c =? 133) || (c =? 160) || (c =? 5760)
   || ((8192 <=? c) && (c <=? 8202))
   || (c =? 8232) || (c =? 8233) || (c =? 8239) || (c =? 8287)
   || (c =? 12288))%N.

Fixpoint lstrip (s : str) : str :=
  match s with
  | [] => []
  | c :: s' => if isspace c then lstrip s' else s
  end.

Definition rstrip (s : str) : str := rev (lstrip (rev s)).

(** [s.strip()] *)
Definition strip (s : str) : str := rstrip (lstrip s).

Fixpoint eqb (a b : str) : bool :=
  match a, b with
  | [], [] => true
  | x :: a', y :: b' => (x =? y)%N && eqb a' b'
  | _, _ => false
  end.

(** [s.endswith(suffix)] *)
Definition endswith (s suffix : str) : bool :=
  (length suffix <=? length s)%nat
  && eqb (skipn (length s - length suffix) s) suffix.

(** The order of [<] on [str]: lexicographic on code points. *)
Fixpoint compare (a b : str) : comparison :=
  match a, b with
  | [], [] => Eq
  | [], _ :: _ => Lt
  | _ :: _, [] => Gt
  | x :: a', y :: b' =>
      match (x ?= y)%N with
      | Eq => compare a' b'
      | c => c
      end
  end.

Definition leb (a b : str) : bool :=
  match compare a b with Gt => false | _ => true end.

Definition ltb (a b : str) : bool :=
  match compare a b with Lt => true | _ => false end.

(** [not s]: the truth value of a string is its non-emptiness. *)
Definition is_empty (s : str) : bool :=
  match s with [] => true | _ :: _ => false end.

End PyStr.

Abbreviation str := PyStr.str.
Abbreviation lit := PyStr.lit.

(** [a < b] on strings, as a proposition. *)
Definition str_lt (a b : str) : Prop := PyStr.ltb a b = true.

(* ================================================================= *)
(** ** Exceptions and results *)

(** The classes of exceptions that the handlers of [main] distinguish.
    [ValueError_and_OSError] stands for a class that derives from both
    (such as [io.UnsupportedOperation]); [BaseExceptionOnly] for those
    that do not derive from [Exception] ([KeyboardInterrupt],
    [SystemExit], [GeneratorExit]). *)
Inductive exn_class : Type :=
| ValueError
| OSError
| ValueError_and_OSError
| OtherException
| BaseExceptionOnly.

Record exn : Type := mk_exn { exn_cls : exn_class; exn_str : string }.

Definition isinstance_ValueError (e : exn) : bool :=
  match exn_cls e with
  | ValueError | ValueError_and_OSError => true
  | _ => false
  end.

Definition isinstance_OSError (e : exn) : bool :=
  match exn_cls e with
  | OSError | ValueError_and_OSError => true
  | _ => false
  end.

Definition isinstance_Exception (e : exn) : bool :=
  match exn_cls e with
  | BaseExceptionOnly => false
  | _ => true
  end.

Inductive outcome (A : Type) : Type :=
| Return (a : A)
| Raise (e : exn).
Arguments Return {A} a.
Arguments Raise {A} e.

Definition obind {A B} (o : outcome A) (k : A -> outcome B) : outcome B :=
  match o with
  | Return a => k a
  | Raise e => Raise e
  end.

(* ================================================================= *)
(** ** 64-bit integers *)

Definition wrap64 (z : Z) : Z := (z + 2 ^ 63) mod 2 ^ 64 - 2 ^ 63.

Definition int64_add (a b : Z) : Z := wrap64 (a + b).

Definition in_int64 (z : Z) : Prop := - 2 ^ 63 <= z < 2 ^ 63.

(** The sum of an [int64] column, accumulated in [int64]. *)
Definition sum64 (l : list Z) : Z := fold_left int64_add l 0.

(** The sum of a list of integers, without wrap-around. *)
Definition Zsum (l : list Z) : Z := fold_right Z.add 0 l.

(* ================================================================= *)
(** ** numpy's generator *)

(** The legacy global generator of [numpy.random], as far as the
    program uses it.  [seed x] is the state that [np.random.seed(x)]
    installs, whatever the state was before; [randint_draw lo hi n]
    draws [n] integers for [randint(lo, hi, n)]; [choice_draw k n] draws
    the [n] positions for [choice(a, n)] on a population of [k]. *)
Record RandomState : Type := {
  rng_state : Type;
  seed : Z -> rng_state;
  randint_draw : Z -> Z -> nat -> rng_state -> list Z * rng_state;
  choice_draw : nat -> nat -> rng_state -> list nat * rng_state
}.

(** What numpy documents of the draws: [size] values, each in the
    half-open interval, respectively each a position of the population. *)
Record numpy_contract (R : RandomState) : Prop := {
  randint_length : forall lo hi n s,
      length (fst (randint_draw R lo hi n s)) = n;
  randint_range : forall lo hi n s,
      lo < hi ->
      Forall (fun x => lo <= x < hi) (fst (randint_draw R lo hi n s));
  choice_length : forall k n s,
      length (fst (choice_draw R k n s)) = n;
  choice_range : forall k n s,
      (0 < k)%nat ->
      Forall (fun i => (i < k)%nat) (fst (choice_draw R k n s))
}.

Definition negative_dimensions : exn :=
  mk_exn ValueError "negative dimensions are not allowed".

(** [np.random.randint(low, high, size)] *)
Definition randint (R : RandomState) (low high size : Z) (s : rng_state R)
  : outcome (list Z) * rng_state R :=
  if size <? 0 then (Raise negative_dimensions, s)
  else if high <=? low then (Raise (mk_exn ValueError "low >= high"), s)
  else let (xs, s') := randint_draw R low high (Z.to_nat size) s in
       (Return xs, s').

(** [np.random.choice(a, size)] *)
Definition choice {A} (R : RandomState) (a : list A) (size : Z)
           (s : rng_state R) : outcome (list A) * rng_state R :=
  if size <? 0 then (Raise negative_dimensions, s)
  else
    match a with
    | [] =>
        if size =? 0 then (Return [], s)
        else (Raise (mk_exn ValueError
                       "a cannot be empty unless no samples are taken"), s)
    | d :: _ =>
        let (idx, s') := choice_draw R (length a) (Z.to_nat size) s in
        (Return (map (fun i => nth i a d) idx), s')
    end.

(** A small linear congruential generator, an instance of the
    interface on which the statements can be evaluated. *)
Module LCG.

Definition next (s : Z) : Z := (1103515245 * s + 12345) mod 2 ^ 31.

Fixpoint draw (n : nat) (s : Z) : list Z * Z :=
  match n with
  | O => ([], s)
  | S n' => let s1 := next s in
            let (xs, s2) := draw n' s1 in
            (s1 :: xs, s2)
  end.

Definition ints (lo hi : Z) (n : nat) (s : Z) : list Z * Z :=
  let (xs, s') := draw n s in
  (map (fun x => lo + x mod (hi - lo)) xs, s').

Definition positions (k n : nat) (s : Z) : list nat * Z :=
  let (xs, s') := draw n s in
  (map (fun x => Z.to_nat (x mod Z.of_nat k)) xs, s').

Definition rs : RandomState :=
  {| rng_state := Z;
     seed := fun x => x mod 2 ^ 32;
     randint_draw := ints;
     choice_draw := positions |}.

End LCG.

(* ================================================================= *)
(** ** The data frame *)

Record Row : Type := mk_Row {
  Date : Z;
  Category : str;
  Sales : Z;
  Profit : Z
}.

Definition DataFrame := list Row.

(** The day number of a date of the Gregorian calendar: the days from
    1970-01-01 to it. *)
Definition days_from_civil (y m d : Z) : Z :=
  let y' := if m <=? 2 then y - 1 else y in
  let era := y' / 400 in
  let yoe := y' - era * 400 in
  let doy := (153 * (if 2 <? m then m - 3 else m + 9) + 2) / 5 + d - 1 in
  let doe := yoe * 365 + yoe / 4 - yoe / 100 + doy in
  era * 146097 + doe - 719468.

(** [start='2023-01-01'] *)
Definition start_2023_01_01 : Z := days_from_civil 2023 1 1.

(** The decimal text of an integer. *)
Definition string_of_Z (z : Z) : string :=
  NilZero.string_of_int (Z.to_int z).

(** A timestamp of pandas is a 64-bit count of nanoseconds since
    1970-01-01. *)
Definition ns_per_day : Z := 86400 * 10 ^ 9.
Definition int64_max : Z := 2 ^ 63 - 1.

(** [pd.date_range(start=..., periods=..., freq='<step>D')], for a
    start not before 1970 and a positive step, as the program calls it:
    [periods] days, [step] days apart.
    - The count is first made an unsigned 64-bit number, which fails
      with an [OverflowError] for a negative count (and for one of 65
      bits).
    - The end of the range, [start + periods * step] in nanoseconds, may
      pass the largest timestamp by one step at most, so that the last
      date still fits; otherwise the range is refused with
      [OutOfBoundsDatetime], which is a [ValueError]. *)
Definition date_range (start periods step : Z) : outcome (list Z) :=
  if (periods <? 0) || (2 ^ 64 <=? periods)
  then Raise (mk_exn OtherException
                (String.append "Python integer "
                   (String.append (string_of_Z periods)
                                  " out of bounds for uint64")))
  else if int64_max + step * ns_per_day
          <? start * ns_per_day + periods * (step * ns_per_day)
  then Raise (mk_exn ValueError
                (String.append "Cannot generate range with start="
                   (String.append (string_of_Z (start * ns_per_day))
                      (String.append " and periods="
                                     (string_of_Z periods)))))
  else Return (map (fun i => start + step * Z.of_nat i)
                   (seq 0 (Z.to_nat periods))).

(** The largest count for which the range from 2023-01-01 in steps of
    three days fits: its last date is 2262-04-11. *)
Definition max_rows : Z := 29132.

Fixpoint rows_of_columns (dates : list Z) (cats : list str)
         (sales profits : list Z) : list Row :=
  match dates, cats, sales, profits with
  | d :: dates', c :: cats', s :: sales', p :: profits' =>
      mk_Row d c s p :: rows_of_columns dates' cats' sales' profits'
  | _, _, _, _ => []
  end.

(** [pd.DataFrame(data)] for the dict of the four columns: the columns
    must have one length. *)
Definition mk_DataFrame (dates : list Z) (cats : list str)
           (sales profits : list Z) : outcome DataFrame :=
  if ((length cats =? length dates) && (length sales =? length dates)
      && (length profits =? length dates))%nat
  then Return (rows_of_columns dates cats sales profits)
  else Raise (mk_exn ValueError "All arrays must be of the same length").

Fixpoint insert_by_Date (r : Row) (l : list Row) : list Row :=
  match l with
  | [] => [r]
  | x :: l' => if Date r <? Date x then r :: l else x :: insert_by_Date r l'
  end.

(** [df.sort_values('Date')]: the rows in ascending order of [Date].
    pandas sorts with quicksort, which may leave rows of one date in
    any order; what it returns for a frame of distinct dates is the
    same for every way of sorting, and that is what is modelled, by
    insertion.  The frame that the program sorts has distinct dates;
    nothing is stated below on the order among rows of one date. *)
Definition sort_values_Date (df : DataFrame) : DataFrame :=
  fold_left (fun acc r => insert_by_Date r acc) df [].

(** The order that the frame is sorted by. *)
Definition Date_le (a b : Row) : Prop := Date a <= Date b.

(** The bounds of the two draws of [randint]. *)
Definition Sales_in_range (r : Row) : Prop := 100 <= Sales r < 1000.
Definition Profit_in_range (r : Row) : Prop := 10 <= Profit r < 300.

Definition categories : list str :=
  [lit "Electronics"; lit "Clothing"; lit "Home";
   lit "Garden"; lit "Toys"; lit "Sports"].

(** [generate_sales_data(rows)], on the global generator state [s].
    The entries of the dict are evaluated in the order written. *)
Definition generate_sales_data (R : RandomState) (rows : Z)
           (s : rng_state R) : outcome DataFrame * rng_state R :=
  let s0 := seed R 42 in
  match date_range start_2023_01_01 rows 3 with
  | Raise e => (Raise e, s0)
  | Return dates =>
      match choice R categories rows s0 with
      | (Raise e, s1) => (Raise e, s1)
      | (Return cats, s1) =>
          match randint R 100 1000 rows s1 with
          | (Raise e, s2) => (Raise e, s2)
          | (Return sales, s2) =>
              match randint R 10 300 rows s2 with
              | (Raise e, s3) => (Raise e, s3)
              | (Return profits, s3) =>
                  match mk_DataFrame dates cats sales profits with
                  | Raise e => (Raise e, s3)
                  | Return df => (Return (sort_values_Date df), s3)
                  end
              end
          end
      end
  end.

(** The default of the parameter [rows]. *)
Definition default_rows : Z := 100.

(* ================================================================= *)
(** ** Aggregation and the dashboard *)

(** The distinct values of a column in the order of their first
    appearance (the group keys as pandas factorizes them). *)
Fixpoint unique (l : list str) : list str :=
  match l with
  | [] => []
  | x :: l' => x :: filter (fun y => negb (PyStr.eqb y x)) (unique l')
  end.

Fixpoint insert_key (k : str) (l : list str) : list str :=
  match l with
  | [] => [k]
  | x :: l' => if PyStr.leb k x then k :: l else x :: insert_key k l'
  end.

(** The group keys in ascending order: [groupby] has [sort=True] by
    default. *)
Definition sort_keys (l : list str) : list str :=
  fold_right insert_key [] l.

(** The [Sales] of the rows of one group. *)
Definition group_Sales (k : str) (df : DataFrame) : list Z :=
  map Sales (filter (fun r => PyStr.eqb (Category r) k) df).

(** [df.groupby('Category')['Sales'].sum().reset_index()]: one row
    (Category, Sales) per group, the groups in the order of their
    keys. *)
Definition groupby_Category_Sales_sum (df : DataFrame) : list (str * Z) :=
  map (fun k => (k, sum64 (group_Sales k df)))
      (sort_keys (unique (map Category df))).

(** The first figure: line and scatter glyphs over the whole frame,
    [x='Date'], [y='Sales']. *)
Record LineFigure : Type := {
  line_source : DataFrame;
  line_points : list (Z * Z)
}.

(** The second figure: [x_range], the data source of the bars, the
    factors of the colour map and the start of the y range. *)
Record BarFigure : Type := {
  x_range : list str;
  source_grouped : list (str * Z);
  cmap_factors : list str;
  y_range_start : Z
}.

(** [column(p_line, p_bar)] *)
Record Layout : Type := {
  p_line : LineFigure;
  p_bar : BarFigure
}.

Definition create_dashboard (df : DataFrame) : Layout :=
  let df_grouped := groupby_Category_Sales_sum df in
  let categories_list := map fst df_grouped in
  {| p_line := {| line_source := df;
                  line_points := map (fun r => (Date r, Sales r)) df |};
     p_bar := {| x_range := categories_list;
                 source_grouped := df_grouped;
                 cmap_factors := categories_list;
                 y_range_start := 0 |} |}.

(** The aggregated rows and their categories, as the bar chart has them. *)
Definition aggregated (df : DataFrame) : list (str * Z) :=
  source_grouped (p_bar (create_dashboard df)).

Definition categories_list (df : DataFrame) : list str :=
  x_range (p_bar (create_dashboard df)).

(* ================================================================= *)
(** ** The orchestration: [save_report] and [main] *)

(** The lines that [main] prints. *)
Inductive line : Type :=
| Banner                        (* Генератор аналітичного звіту (Bokeh) *)
| Step_generate                 (* 1.Генерація даних... *)
| Step_build                    (* 2.Створення візуалізацій... *)
| Step_save (filename : str)    (* 3.Збереження у файл '...'... *)
| Success (filename : str)      (* Успішно! Відкрийте файл ... *)
| Input_error (text : string)   (* Помилка вводу: ... *)
| Filesystem_error (text : string)
                                (* Помилка доступу до файлової системи: ... *)
| Unexpected_error (text : string).
                                (* Виникла неочікувана помилка: ... *)

Definition is_error_line (l : line) : bool :=
  match l with
  | Input_error _ | Filesystem_error _ | Unexpected_error _ => true
  | _ => false
  end.

(** What a run does, in order. *)
Inductive event : Type :=
| Printed (l : line)
| Prompted
| Called_generate_sales_data (rows : Z)
| Called_create_dashboard (df : DataFrame)
| Called_save_report (layout : Layout) (filename : str).

Section Orchestration.

Variable R : RandomState.

(** The surroundings of one run: what [input] gives (the line typed,
    or the exception it raises), the state of numpy's generator and
    the files at the start, the failure (if any) that the libraries
    raise inside a stage for reasons of their own, and the failure
    (if any) of writing to a path. *)
Record World : Type := {
  stdin : outcome str;
  rng0 : rng_state R;
  disk0 : list (str * Layout);
  generate_fault : option exn;
  build_fault : option exn;
  write_fault : str -> option exn
}.

Record State : Type := mk_State {
  trace : list event;
  disk : list (str * Layout);
  rng : rng_state R
}.

Definition M (A : Type) : Type := State -> outcome A * State.

Definition ret {A} (a : A) : M A := fun st => (Return a, st).

Definition bind {A B} (m : M A) (k : A -> M B) : M B :=
  fun st =>
    match m st with
    | (Return a, st') => k a st'
    | (Raise e, st') => (Raise e, st')
    end.

Definition raise {A} (e : exn) : M A := fun st => (Raise e, st).

Definition log (ev : event) : M unit :=
  fun st => (Return tt, mk_State (trace st ++ [ev]) (disk st) (rng st)).

Definition print (l : line) : M unit := log (Printed l).

Notation "x <- m ;; k" := (bind m (fun x => k))
  (at level 61, m at next level, right associativity).
Notation "m ;;; k" := (bind m (fun _ => k))
  (at level 61, right associativity).

(** [input(...)] *)
Definition input (W : World) : M str :=
  log Prompted ;;; fun st => (stdin W, st).

(** The call [generate_sales_data()], with the default [rows]. *)
Definition call_generate_sales_data (W : World) : M DataFrame :=
  log (Called_generate_sales_data default_rows) ;;;
  match generate_fault W with
  | Some e => raise e
  | None =>
      fun st =>
        let (o, r) := generate_sales_data R default_rows (rng st) in
        (o, mk_State (trace st) (disk st) r)
  end.

(** The call [create_dashboard(df)]. *)
Definition call_create_dashboard (W : World) (df : DataFrame) : M Layout :=
  log (Called_create_dashboard df) ;;;
  match build_fault W with
  | Some e => raise e
  | None => ret (create_dashboard df)
  end.

(** [save_report(layout, filename)]: the file at [filename] is
    written, over a file that is there already. *)
Definition save_report (W : World) (layout : Layout) (filename : str)
  : M unit :=
  log (Called_save_report layout filename) ;;;
  match write_fault W filename with
  | Some e => raise e
  | None =>
      fun st =>
        (Return tt,
         mk_State (trace st) ((filename, layout) :: disk st) (rng st))
  end.

Definition empty_filename : exn :=
  mk_exn ValueError "Ім'я файлу не може бути порожнім.".

(** The name with the extension: [".html"] is added to a name that
    does not end with it. *)
Definition html_filename (user_filename : str) : str :=
  if negb (PyStr.endswith user_filename (lit ".html"))
  then user_filename ++ lit ".html"
  else user_filename.

(** The body of the [try]. *)
Definition main_try (W : World) : M unit :=
  raw <- input W ;;
  let user_filename := PyStr.strip raw in
  if PyStr.is_empty user_filename then raise empty_filename
  else
    let user_filename := html_filename user_filename in
    print Step_generate ;;;
    df <- call_generate_sales_data W ;;
    print Step_build ;;;
    dashboard_layout <- call_create_dashboard W df ;;
    print (Step_save user_filename) ;;;
    save_report W dashboard_layout user_filename ;;;
    print (Success user_filename).

(** The three [except] clauses, tried in the order written. *)
Definition main_except (e : exn) : M unit :=
  if isinstance_ValueError e then print (Input_error (exn_str e))
  else if isinstance_OSError e then print (Filesystem_error (exn_str e))
  else if isinstance_Exception e then print (Unexpected_error (exn_str e))
  else raise e.

Definition main (W : World) : M unit :=
  print Banner ;;;
  fun st =>
    match main_try W st with
    | (Return tt, st') => (Return tt, st')
    | (Raise e, st') => main_except e st'
    end.

(** One run of the program in the surroundings [W]. *)
Definition run (W : World) : outcome unit * State :=
  main W (mk_State [] (disk0 W) (rng0 W)).

(** The process ends normally (status 0) when [main] returns, and with
    a traceback when an exception leaves it. *)
Definition exits_normally (W : World) : bool :=
  match fst (run W) with Return _ => true | Raise _ => false end.

Definition printed (W : World) : list line :=
  flat_map (fun ev => match ev with Printed l => [l] | _ => [] end)
           (trace (snd (run W))).

(** The path that [save_report] is called with, if it is called. *)
Definition output_path (W : World) : option str :=
  hd_error
    (flat_map (fun ev => match ev with
                         | Called_save_report _ f => [f]
                         | _ => []
                         end)
              (trace (snd (run W)))).

(** The frame that the report is built from, if one is. *)
Definition report_data (W : World) : option DataFrame :=
  hd_error
    (flat_map (fun ev => match ev with
                         | Called_create_dashboard df => [df]
                         | _ => []
                         end)
              (trace (snd (run W)))).

End Orchestration.

Arguments stdin {R} _.
Arguments rng0 {R} _.
Arguments disk0 {R} _.
Arguments generate_fault {R} _.
Arguments build_fault {R} _.
Arguments write_fault {R} _.
Arguments trace {R} _.
Arguments disk {R} _.
Arguments rng {R} _.

(** Whether the run reached its last line, the success message. *)
Definition succeeded (R : RandomState) (W : World R) : bool :=
  existsb (fun l => match l with Success _ => true | _ => false end)
          (printed R W).

(** The state in which the [try] is entered. *)
Definition at_try (R : RandomState) (W : World R) : State R :=
  mk_State R [Printed Banner] (disk0 W) (rng0 W).

(** The exception, if any, that leaves the body of the [try]. *)
Definition raised (R : RandomState) (W : World R) : option exn :=
  match fst (main_try R W (at_try R W)) with
  | Return _ => None
  | Raise e => Some e
  end.

(** The line that an [except] clause prints for an exception. *)
Definition report_of (e : exn) : line :=
  match exn_cls e with
  | ValueError | ValueError_and_OSError => Input_error (exn_str e)
  | OSError => Filesystem_error (exn_str e)
  | _ => Unexpected_error (exn_str e)
  end.

Definition is_call (ev : event) : bool :=
  match ev with
  | Called_generate_sales_data _ | Called_create_dashboard _
  | Called_save_report _ _ => true
  | _ => false
  end.

(** The events of a run that has not reached its success line: the
    generation, where it is called, is called with the default count. *)
Definition before_success (ev : event) : Prop :=
  match ev with
  | Printed (Success _) => False
  | Called_generate_sales_data rows => rows = default_rows
  | _ => True
  end.

(** The surroundings [W], with another answer of [input]. *)
Definition with_stdin (R : RandomState) (W : World R) (i : outcome str)
  : World R :=
  Build_World R i (rng0 W) (disk0 W) (generate_fault W) (build_fault W)
              (write_fault W).

(** The events of a run that goes through all the stages, for the frame
    [df] and the file name [p]. *)
Definition stage_events (df : DataFrame) (p : str) : list event :=
  [Printed Banner; Prompted; Printed Step_generate;
   Called_generate_sales_data default_rows;
   Printed Step_build; Called_create_dashboard df;
   Printed (Step_save p);
   Called_save_report (create_dashboard df) p;
   Printed (Success p)].

(** The stages that a run calls, in the order of the calls. *)
Definition calls (R : RandomState) (W : World R) : list event :=
  filter is_call (trace (snd (run R W))).

(** The file at a path: the one written last under that name. *)
Definition read_file (d : list (str * Layout)) (p : str) : option Layout :=
  match find (fun f => PyStr.eqb (fst f) p) d with
  | Some f => Some (snd f)
  | None => None
  end.

(* ================================================================= *)
(** * Properties *)

(** ** Strings *)

Module PyStrFacts.

Import PyStr.

Lemma eqb_eq (a b : str) : eqb a b = true <-> a = b.
Proof.
  revert b; induction a as [|x a IH]; intros [|y b]; simpl;
    try (split; [discriminate | discriminate]); try tauto.
  rewrite andb_true_iff, N.eqb_eq, IH.
  split; [intros [-> ->]; reflexivity | intros H; inversion H; auto].
Qed.

Lemma eqb_refl (a : str) : eqb a a = true.
Proof. apply eqb_eq; reflexivity. Qed.

Lemma eqb_neq (a b : str) : eqb a b = false <-> a <> b.
Proof.
  rewrite <- eqb_eq. destruct (eqb a b); split; congruence.
Qed.

Lemma compare_eq (a b : str) : compare a b = Eq <-> a = b.
Proof.
  revert b; induction a as [|x a IH]; intros [|y b]; simpl;
    try (split; [discriminate | discriminate]); try tauto.
  destruct (N.compare_spec x y) as [E | L | L].
  - subst y. rewrite IH. split; [intros ->; auto | intros H; inversion H; auto].
  - split; [discriminate | intros H; inversion H; lia].
  - split; [discriminate | intros H; inversion H; lia].
Qed.

Lemma compare_antisym (a b : str) : compare b a = CompOpp (compare a b).
Proof.
  revert b; induction a as [|x a IH]; intros [|y b]; simpl; auto.
  rewrite (N.compare_antisym x y).
  destruct (x ?= y)%N; simpl; auto.
Qed.

Lemma compare_lt_trans (a b c : str) :
  compare a b = Lt -> compare b c = Lt -> compare a c = Lt.
Proof.
  revert b c; induction a as [|x a IH]; intros [|y b] [|z c]; simpl;
    try discriminate; auto.
  destruct (N.compare_spec x y) as [E | L | L]; try discriminate.
  - subst y. destruct (x ?= z)%N; try discriminate; auto.
    apply IH.
  - intros _.
    destruct (N.compare_spec y z) as [E | L' | L']; try discriminate.
    + subst z. intros _.
      destruct (N.compare_spec x y); auto; lia.
    + intros _. destruct (N.compare_spec x z); auto; lia.
Qed.

Lemma leb_cases (a b : str) :
  leb a b = true -> a = b \/ compare a b = Lt.
Proof.
  unfold leb. destruct (compare a b) eqn:E; try discriminate; auto.
  left. apply compare_eq; assumption.
Qed.

Lemma leb_false (a b : str) : leb a b = false -> compare b a = Lt.
Proof.
  unfold leb. rewrite (compare_antisym a b).
  destruct (compare a b); simpl; congruence.
Qed.

Lemma lstrip_blank (s : str) :
  forallb isspace s = true -> lstrip s = [].
Proof.
  induction s as [|c s IH]; simpl; auto.
  rewrite andb_true_iff. intros [-> H]. auto.
Qed.

Lemma endswith_app (s suffix : str) : endswith (s ++ suffix) suffix = true.
Proof.
  unfold endswith. rewrite length_app.
  apply andb_true_iff; split.
  - apply Nat.leb_le. lia.
  - replace (length s + length suffix - length suffix)%nat with
      (length s + 0)%nat by lia.
    rewrite skipn_app, Nat.add_0_r, skipn_all.
    replace (length s - length s)%nat with 0%nat by lia.
    simpl. apply eqb_refl.
Qed.

(** A line of white space only is empty after [strip]. *)
Lemma strip_blank (s : str) : forallb isspace s = true -> strip s = [].
Proof.
intros H. unfold strip. rewrite (lstrip_blank s H). reflexivity.
Qed.

End PyStrFacts.

(** The name that [main] saves to ends with [".html"]. *)
Lemma html_filename_endswith (user_filename : str) :
  PyStr.endswith (html_filename user_filename) (lit ".html") = true.
Proof.
  unfold html_filename.
  destruct (PyStr.endswith user_filename (lit ".html")) eqn:E; simpl.
  - exact E.
  - apply PyStrFacts.endswith_app.
Qed.

(** ** The generator *)

Module LCGFacts.

Import LCG.

Lemma draw_length (n : nat) (s : Z) : length (fst (draw n s)) = n.
Proof.
  revert s; induction n as [|n IH]; intros s; simpl; auto.
  specialize (IH (next s)).
  destruct (draw n (next s)); simpl in *; congruence.
Qed.

Lemma fst_ints lo hi n s :
  fst (ints lo hi n s) = map (fun x => lo + x mod (hi - lo)) (fst (draw n s)).
Proof. unfold ints. destruct (draw n s); reflexivity. Qed.

Lemma fst_positions k n s :
  fst (positions k n s)
  = map (fun x => Z.to_nat (x mod Z.of_nat k)) (fst (draw n s)).
Proof. unfold positions. destruct (draw n s); reflexivity. Qed.

Lemma contract : numpy_contract rs.
Proof.
  constructor; simpl; intros.
  - rewrite fst_ints, length_map. apply draw_length.
  - rewrite fst_ints. apply Forall_forall. intros x Hx.
    apply in_map_iff in Hx. destruct Hx as [y [<- _]].
    pose proof (Z.mod_pos_bound y (hi - lo)). lia.
  - rewrite fst_positions, length_map. apply draw_length.
  - rewrite fst_positions. apply Forall_forall. intros x Hx.
    apply in_map_iff in Hx. destruct Hx as [y [<- _]].
    pose proof (Z.mod_pos_bound y (Z.of_nat k)). lia.
Qed.

End LCGFacts.

Section GeneratorFacts.

Variable R : RandomState.
Hypothesis HR : numpy_contract R.

Lemma randint_returns (lo hi n : Z) (s : rng_state R) :
  0 <= n -> lo < hi ->
  exists xs s',
    randint R lo hi n s = (Return xs, s')
    /\ length xs = Z.to_nat n
    /\ Forall (fun x => lo <= x < hi) xs.
Proof.
  intros Hn Hlh. unfold randint.
  destruct (n <? 0) eqn:E1; [apply Z.ltb_lt in E1; lia|].
  destruct (hi <=? lo) eqn:E2; [apply Z.leb_le in E2; lia|].
  pose proof (randint_length R HR lo hi (Z.to_nat n) s) as HL.
  pose proof (randint_range R HR lo hi (Z.to_nat n) s Hlh) as HF.
  destruct (randint_draw R lo hi (Z.to_nat n) s) as [xs s'].
  exists xs, s'. simpl in *. auto.
Qed.

Lemma choice_returns (n : Z) (s : rng_state R) :
  0 <= n ->
  exists cs s',
    choice R categories n s = (Return cs, s')
    /\ length cs = Z.to_nat n
    /\ Forall (fun c => In c categories) cs.
Proof.
  intros Hn. unfold choice.
  destruct (n <? 0) eqn:E1; [apply Z.ltb_lt in E1; lia|].
  change categories with (lit "Electronics" :: tl categories) at 1.
  cbv iota.
  pose proof (choice_length R HR (length categories) (Z.to_nat n) s) as HL.
  assert (HK : (0 < length categories)%nat) by (simpl; lia).
  pose proof (choice_range R HR (length categories) (Z.to_nat n) s HK) as HF.
  destruct (choice_draw R (length categories) (Z.to_nat n) s) as [idx s'].
  simpl fst in *.
  eexists; exists s'. split; [reflexivity|]. split.
  - rewrite length_map. exact HL.
  - apply Forall_forall. intros c Hc. apply in_map_iff in Hc.
    destruct Hc as [i [<- Hi]].
    rewrite Forall_forall in HF. specialize (HF i Hi).
    apply nth_In. exact HF.
Qed.

End GeneratorFacts.

(** ** Columns, rows and the sort by date *)

Lemma rows_of_columns_columns (dates : list Z) :
  forall (cats : list str) (sales profits : list Z),
    length cats = length dates ->
    length sales = length dates ->
    length profits = length dates ->
    map Date (rows_of_columns dates cats sales profits) = dates
    /\ map Category (rows_of_columns dates cats sales profits) = cats
    /\ map Sales (rows_of_columns dates cats sales profits) = sales
    /\ map Profit (rows_of_columns dates cats sales profits) = profits.
Proof.
  induction dates as [|d dates IH];
    intros [|c cats] [|x sales] [|p profits]; simpl; try discriminate; auto.
  intros H1 H2 H3.
  destruct (IH cats sales profits) as [E1 [E2 [E3 E4]]]; try lia.
  rewrite E1, E2, E3, E4. auto.
Qed.

Lemma insert_by_Date_last (r : Row) (acc : list Row) :
  Forall (fun x => Date x <= Date r) acc ->
  insert_by_Date r acc = acc ++ [r].
Proof.
  induction 1 as [|x acc Hx _ IH]; simpl; auto.
  destruct (Date r <? Date x) eqn:E; [apply Z.ltb_lt in E; lia|].
  rewrite IH. reflexivity.
Qed.

Lemma sort_values_Date_acc (l : list Row) :
  forall acc,
    StronglySorted Date_le l ->
    (forall x y, In x acc -> In y l -> Date x <= Date y) ->
    fold_left (fun a r => insert_by_Date r a) l acc = acc ++ l.
Proof.
  induction l as [|r l IH]; intros acc Hs Hacc; simpl.
  - rewrite app_nil_r. reflexivity.
  - inversion Hs as [|? ? Hs' Hr]; subst.
    rewrite insert_by_Date_last.
    + rewrite IH; auto.
      * rewrite <- app_assoc. reflexivity.
      * intros x y Hx Hy. apply in_app_or in Hx.
        destruct Hx as [Hx | [<- | []]].
        -- apply Hacc; simpl; auto.
        -- rewrite Forall_forall in Hr. apply Hr; auto.
    + apply Forall_forall. intros x Hx. apply Hacc; simpl; auto.
Qed.

(** The sort by insertion leaves a frame in date order as it is (used
    below for the generated frame only, whose dates are distinct). *)
Lemma sort_values_Date_sorted (df : DataFrame) :
  StronglySorted Date_le df -> sort_values_Date df = df.
Proof.
  intros H. unfold sort_values_Date.
  rewrite sort_values_Date_acc; auto.
  intros x y [].
Qed.

Lemma StronglySorted_map_Date (df : DataFrame) :
  StronglySorted Z.le (map Date df) -> StronglySorted Date_le df.
Proof.
  induction df as [|r df IH]; simpl; intros H; constructor;
    inversion H; subst; auto.
  rewrite Forall_map in *. assumption.
Qed.

Lemma arith_seq_sorted (start step : Z) (k n : nat) :
  0 <= step ->
  StronglySorted Z.le
    (map (fun i => start + step * Z.of_nat i) (seq k n)).
Proof.
  intros Hstep. revert k; induction n as [|n IH]; intros k; simpl;
    constructor; auto.
  apply Forall_forall. intros y Hy. apply in_map_iff in Hy.
  destruct Hy as [i [<- Hi]]. apply in_seq in Hi. nia.
Qed.

(** ** The range of dates *)

Lemma date_range_returns (rows : Z) :
  0 <= rows <= max_rows ->
  date_range start_2023_01_01 rows 3
  = Return (map (fun i => start_2023_01_01 + 3 * Z.of_nat i)
                (seq 0 (Z.to_nat rows))).
Proof.
  intros H. unfold date_range, max_rows in *.
  assert (E : start_2023_01_01 = 19358) by reflexivity.
  destruct ((rows <? 0) || (2 ^ 64 <=? rows)) eqn:E1.
  { apply orb_true_iff in E1. destruct E1 as [E1 | E1];
      [apply Z.ltb_lt in E1 | apply Z.leb_le in E1]; lia. }
  destruct (int64_max + 3 * ns_per_day
            <? start_2023_01_01 * ns_per_day + rows * (3 * ns_per_day))
    eqn:E2; [|reflexivity].
  apply Z.ltb_lt in E2. unfold int64_max, ns_per_day in E2. lia.
Qed.

Lemma date_range_Return (rows : Z) (dates : list Z) :
  date_range start_2023_01_01 rows 3 = Return dates ->
  0 <= rows <= max_rows
  /\ dates = map (fun i => start_2023_01_01 + 3 * Z.of_nat i)
                 (seq 0 (Z.to_nat rows)).
Proof.
  unfold date_range, max_rows.
  assert (E : start_2023_01_01 = 19358) by reflexivity.
  destruct ((rows <? 0) || (2 ^ 64 <=? rows)) eqn:E1; [discriminate|].
  apply orb_false_iff in E1. destruct E1 as [E1 _]. apply Z.ltb_ge in E1.
  destruct (int64_max + 3 * ns_per_day
            <? start_2023_01_01 * ns_per_day + rows * (3 * ns_per_day))
    eqn:E2; [discriminate|].
  apply Z.ltb_ge in E2. unfold int64_max, ns_per_day in E2.
  intros H. inversion H. split; [lia | reflexivity].
Qed.

(** Beyond the largest count the range is refused. *)
Lemma date_range_out_of_bounds (rows : Z) :
  max_rows < rows < 2 ^ 64 ->
  exists e,
    date_range start_2023_01_01 rows 3 = Raise e
    /\ exn_cls e = ValueError.
Proof.
  intros H. unfold date_range, max_rows in *.
  assert (E : start_2023_01_01 = 19358) by reflexivity.
  destruct ((rows <? 0) || (2 ^ 64 <=? rows)) eqn:E1.
  { apply orb_true_iff in E1. destruct E1 as [E1 | E1];
      [apply Z.ltb_lt in E1 | apply Z.leb_le in E1]; lia. }
  destruct (int64_max + 3 * ns_per_day
            <? start_2023_01_01 * ns_per_day + rows * (3 * ns_per_day))
    eqn:E2.
  - eexists. split; reflexivity.
  - apply Z.ltb_ge in E2. unfold int64_max, ns_per_day in E2. lia.
Qed.

(** ** [generate_sales_data] *)

Section Generate.

Variable R : RandomState.
Hypothesis HR : numpy_contract R.

(** For a count that is not negative the call returns a frame, whose
    columns are the dates of the range and the draws. *)
Lemma generate_sales_data_returns (rows : Z) (s : rng_state R) :
  0 <= rows <= max_rows ->
  exists df s',
    generate_sales_data R rows s = (Return df, s')
    /\ map Date df
       = map (fun i => start_2023_01_01 + 3 * Z.of_nat i)
             (seq 0 (Z.to_nat rows))
    /\ Forall (fun r => In (Category r) categories) df
    /\ Forall Sales_in_range df
    /\ Forall Profit_in_range df.
Proof.
  intros [Hrows Hmax]. unfold generate_sales_data.
  rewrite (date_range_returns rows) by lia.
  destruct (choice_returns R HR rows (seed R 42) Hrows)
    as [cats [s1 [-> [Lc Fc]]]].
  destruct (randint_returns R HR 100 1000 rows s1 Hrows)
    as [sales [s2 [-> [Ls Fs]]]]; [lia|].
  destruct (randint_returns R HR 10 300 rows s2 Hrows)
    as [profits [s3 [-> [Lp Fp]]]]; [lia|].
  set (dates := map (fun i => start_2023_01_01 + 3 * Z.of_nat i)
                    (seq 0 (Z.to_nat rows))).
  assert (Ld : length dates = Z.to_nat rows)
    by (unfold dates; rewrite length_map, length_seq; reflexivity).
  unfold mk_DataFrame.
  rewrite Lc, Ls, Lp, Ld, !Nat.eqb_refl. simpl andb. cbv iota.
  destruct (rows_of_columns_columns dates cats sales profits)
    as [E1 [E2 [E3 E4]]]; try congruence.
  set (df := rows_of_columns dates cats sales profits) in *.
  assert (Hsorted : StronglySorted Date_le df).
  { apply StronglySorted_map_Date. rewrite E1. unfold dates.
    apply arith_seq_sorted. lia. }
  rewrite (sort_values_Date_sorted df Hsorted).
  exists df, s3. split; [reflexivity|]. split; [exact E1|].
  repeat split.
  - apply (proj1 (Forall_map Category (fun c => In c categories) df)).
    rewrite E2. exact Fc.
  - apply (proj1 (Forall_map Sales (fun x => 100 <= x < 1000) df)).
    rewrite E3. exact Fs.
  - apply (proj1 (Forall_map Profit (fun x => 10 <= x < 300) df)).
    rewrite E4. exact Fp.
Qed.

End Generate.

(** A frame is returned only for a count that the range of dates
    admits. *)
Lemma generate_sales_data_defined
      (R : RandomState) (rows : Z) (s : rng_state R) (df : DataFrame) :
  fst (generate_sales_data R rows s) = Return df ->
  0 <= rows <= max_rows.
Proof.
  unfold generate_sales_data.
  destruct (date_range start_2023_01_01 rows 3) as [dates|e] eqn:ED;
    [|discriminate].
  intros _. apply (date_range_Return rows dates ED).
Qed.

Lemma start_2023_01_01_value : start_2023_01_01 = 19358.
Proof. reflexivity. Qed.

(** C2. [generate_sales_data] is deterministic: the result of a call is
    the same whatever state numpy's generator was in before it, and a
    second call made after a first one returns the same frame again (the
    same rows, with the same dates, categories, sales and profits, in
    the same order). *)
Theorem generate_sales_data_deterministic
        (R : RandomState) (rows : Z) (s1 s2 : rng_state R) :
  generate_sales_data R rows s1 = generate_sales_data R rows s2
  /\ fst (generate_sales_data R rows (snd (generate_sales_data R rows s1)))
     = fst (generate_sales_data R rows s1).
Proof. split; reflexivity. Qed.

(** C4. For a positive [rows], every row of the frame that
    [generate_sales_data(rows)] returns has its category among the six
    of the list, 100 <= Sales < 1000 and 10 <= Profit < 300; and a
    frame is returned for every positive [rows] up to 29132, the counts
    whose dates fit the timestamps of pandas. *)
Theorem generate_sales_data_bounds
        (R : RandomState) (HR : numpy_contract R)
        (rows : Z) (s : rng_state R) :
  0 < rows ->
  (forall df,
      fst (generate_sales_data R rows s) = Return df ->
      Forall (fun r =>
                In (Category r)
                   [lit "Electronics"; lit "Clothing"; lit "Home";
                    lit "Garden"; lit "Toys"; lit "Sports"]
                /\ 100 <= Sales r < 1000
                /\ 10 <= Profit r < 300) df)
  /\ (rows <= 29132 ->
      exists df,
        fst (generate_sales_data R rows s) = Return df
        /\ Forall (fun r =>
                     In (Category r)
                        [lit "Electronics"; lit "Clothing"; lit "Home";
                         lit "Garden"; lit "Toys"; lit "Sports"]
                     /\ 100 <= Sales r < 1000
                     /\ 10 <= Profit r < 300) df).
Proof.
  intros Hrows.
  assert (Hret : 0 <= rows <= max_rows ->
                 exists df,
                   fst (generate_sales_data R rows s) = Return df
                   /\ Forall (fun r =>
                                In (Category r) categories
                                /\ 100 <= Sales r < 1000
                                /\ 10 <= Profit r < 300) df).
  { intros Hr.
    destruct (generate_sales_data_returns R HR rows s Hr)
      as [df [s' [E [_ [Fc [Fs Fp]]]]]].
    exists df. rewrite E. split; [reflexivity|].
    rewrite Forall_forall in *. intros r Hin.
    split; [exact (Fc r Hin)|].
    split; [exact (Fs r Hin) | exact (Fp r Hin)]. }
  split.
  - intros df E.
    destruct (Hret (generate_sales_data_defined R rows s df E))
      as [df' [E' F]].
    rewrite E in E'. inversion E'; subst df'. exact F.
  - intros Hmax. apply Hret. unfold max_rows. lia.
Qed.

Lemma generate_sales_data_bounds_witness :
  exists df,
    fst (generate_sales_data LCG.rs 5 0) = Return df
    /\ Forall (fun r =>
                 In (Category r)
                    [lit "Electronics"; lit "Clothing"; lit "Home";
                     lit "Garden"; lit "Toys"; lit "Sports"]
                 /\ 100 <= Sales r < 1000
                 /\ 10 <= Profit r < 300) df.
Proof.
  apply (proj2 (generate_sales_data_bounds LCG.rs LCGFacts.contract 5 0
                  ltac:(lia))).
  lia.
Defined.

(** C5 (as amended).  For a positive [rows] up to 29132,
    [generate_sales_data(rows)] returns exactly [rows] rows; their dates
    are 2023-01-01, then three days more for each row, in the order of
    the rows; and the frame is in non-decreasing order of [Date].  (The
    last date of a longer range would lie after 2262-04-11, where the
    timestamps of pandas end.) *)
Theorem generate_sales_data_dates
        (R : RandomState) (HR : numpy_contract R)
        (rows : Z) (s : rng_state R) :
  0 < rows -> rows <= 29132 ->
  exists df,
    fst (generate_sales_data R rows s) = Return df
    /\ Z.of_nat (length df) = rows
    /\ hd_error (map Date df) = Some (days_from_civil 2023 1 1)
    /\ (forall i, (i < length df)%nat ->
                  nth_error (map Date df) i
                  = Some (days_from_civil 2023 1 1 + 3 * Z.of_nat i))
    /\ StronglySorted Date_le df.
Proof.
  intros Hrows Hmax.
  destruct (generate_sales_data_returns R HR rows s)
    as [df [s' [E [Ed _]]]]; [unfold max_rows; lia|].
  exists df. rewrite E. split; [reflexivity|].
  assert (HL : length df = Z.to_nat rows).
  { rewrite <- (length_map Date df), Ed, length_map, length_seq.
    reflexivity. }
  split; [lia|]. split; [|split].
  - rewrite Ed. destruct (Z.to_nat rows) eqn:En; [lia|]. reflexivity.
  - intros i Hi. rewrite Ed.
    rewrite nth_error_map, nth_error_seq.
    destruct (Nat.ltb_spec i (Z.to_nat rows)); [reflexivity | lia].
  - apply StronglySorted_map_Date. rewrite Ed.
    apply arith_seq_sorted. lia.
Qed.

Lemma generate_sales_data_dates_witness :
  exists df,
    fst (generate_sales_data LCG.rs 4 0) = Return df
    /\ Z.of_nat (length df) = 4
    /\ hd_error (map Date df) = Some (days_from_civil 2023 1 1)
    /\ (forall i, (i < length df)%nat ->
                  nth_error (map Date df) i
                  = Some (days_from_civil 2023 1 1 + 3 * Z.of_nat i))
    /\ StronglySorted Date_le df.
Proof.
  apply (generate_sales_data_dates LCG.rs LCGFacts.contract 4 0); lia.
Defined.

(** C5, as stated, fails: for a count of 40,000,000 the range of dates
    is refused and no frame is returned. *)
Lemma generate_sales_data_refuses_long_range :
  fst (generate_sales_data LCG.rs 40000000 0)
  = Raise (mk_exn ValueError
             "Cannot generate range with start=1672531200000000000 and periods=40000000")
  /\ ~ exists df,
        fst (generate_sales_data LCG.rs 40000000 0) = Return df
        /\ Z.of_nat (length df) = 40000000.
Proof.
  assert (E : fst (generate_sales_data LCG.rs 40000000 0)
              = Raise (mk_exn ValueError
                         "Cannot generate range with start=1672531200000000000 and periods=40000000"))
    by (vm_compute; reflexivity).
  split; [exact E|].
  intros [df [H _]]. rewrite E in H. discriminate.
Qed.

(** C9. [generate_sales_data(0)] returns the empty frame and raises
    nothing; with a negative [rows] the call raises. *)
Theorem generate_sales_data_nonpositive
        (R : RandomState) (HR : numpy_contract R) (s : rng_state R) :
  fst (generate_sales_data R 0 s) = Return []
  /\ forall rows, rows < 0 ->
                  exists e, fst (generate_sales_data R rows s) = Raise e.
Proof.
  split.
  - destruct (generate_sales_data_returns R HR 0 s)
      as [df [s' [E [Ed _]]]]; [unfold max_rows; lia|].
    rewrite E. simpl in Ed. apply map_eq_nil in Ed. subst df. reflexivity.
  - intros rows Hrows. unfold generate_sales_data, date_range.
    destruct (rows <? 0) eqn:E; [|apply Z.ltb_ge in E; lia].
    eexists. reflexivity.
Qed.

Lemma generate_sales_data_nonpositive_witness :
  fst (generate_sales_data LCG.rs 0 0) = Return []
  /\ forall rows, rows < 0 ->
                  exists e, fst (generate_sales_data LCG.rs rows 0) = Raise e.
Proof.
  exact (generate_sales_data_nonpositive LCG.rs LCGFacts.contract 0).
Defined.

(** ** 64-bit sums *)

Lemma wrap64_small (z : Z) : in_int64 z -> wrap64 z = z.
Proof.
  unfold in_int64, wrap64. intros H.
  rewrite Z.mod_small; lia.
Qed.

Lemma wrap64_add_l (a b : Z) : wrap64 (wrap64 a + b) = wrap64 (a + b).
Proof.
  unfold wrap64. f_equal.
  replace ((a + 2 ^ 63) mod 2 ^ 64 - 2 ^ 63 + b + 2 ^ 63)
    with ((a + 2 ^ 63) mod 2 ^ 64 + b) by ring.
  rewrite Zplus_mod_idemp_l. f_equal. ring.
Qed.

Lemma wrap64_add_r (a b : Z) : wrap64 (a + wrap64 b) = wrap64 (a + b).
Proof. rewrite (Z.add_comm a), wrap64_add_l, Z.add_comm. reflexivity. Qed.

Lemma fold_int64_add (l : list Z) :
  forall a, fold_left int64_add l (wrap64 a) = wrap64 (a + Zsum l).
Proof.
  induction l as [|x l IH]; intros a; simpl.
  - rewrite Z.add_0_r. reflexivity.
  - unfold int64_add at 2. rewrite wrap64_add_l, IH. f_equal. ring.
Qed.

Lemma sum64_Zsum (l : list Z) : sum64 l = wrap64 (Zsum l).
Proof.
  unfold sum64. change 0 with (wrap64 0) at 1.
  rewrite fold_int64_add. reflexivity.
Qed.

Lemma wrap64_Zsum_map {A} (f : A -> Z) (l : list A) :
  wrap64 (Zsum (map (fun k => wrap64 (f k)) l)) = wrap64 (Zsum (map f l)).
Proof.
  induction l as [|k l IH]; simpl; auto.
  rewrite wrap64_add_l, <- wrap64_add_r, IH, wrap64_add_r. reflexivity.
Qed.

(** ** Group keys *)

Section Keys.

Import PyStr PyStrFacts.

Lemma in_unique (x : str) (l : list str) : In x (unique l) <-> In x l.
Proof.
  induction l as [|y l IH]; simpl; [tauto|].
  rewrite filter_In, IH, negb_true_iff, eqb_neq.
  destruct (eqb x y) eqn:E.
  - apply eqb_eq in E. subst. tauto.
  - apply eqb_neq in E. split; [tauto|].
    intros [H | H]; [congruence | auto].
Qed.

Lemma NoDup_unique (l : list str) : NoDup (unique l).
Proof.
  induction l as [|y l IH]; simpl; constructor.
  - rewrite filter_In, negb_true_iff, eqb_neq. tauto.
  - apply NoDup_filter. exact IH.
Qed.

Lemma insert_key_perm (k : str) (l : list str) :
  Permutation (insert_key k l) (k :: l).
Proof.
  induction l as [|x l IH]; simpl; auto.
  destruct (leb k x); auto.
  rewrite IH. apply perm_swap.
Qed.

Lemma sort_keys_perm (l : list str) : Permutation (sort_keys l) l.
Proof.
  induction l as [|x l IH]; simpl; auto.
  rewrite insert_key_perm. auto.
Qed.

Lemma str_lt_compare (a b : str) : str_lt a b <-> compare a b = Lt.
Proof.
  unfold str_lt, ltb. destruct (compare a b); split; congruence.
Qed.

Lemma insert_key_sorted (k : str) (l : list str) :
  ~ In k l ->
  StronglySorted str_lt l ->
  StronglySorted str_lt (insert_key k l).
Proof.
  intros Hk Hs. induction Hs as [|x l Hs IH Hx]; simpl.
  - repeat constructor.
  - simpl in Hk.
    destruct (leb k x) eqn:E.
    + destruct (leb_cases _ _ E) as [-> | L]; [tauto|].
      constructor; [constructor; auto|].
      constructor; [apply str_lt_compare; exact L|].
      eapply Forall_impl; [|exact Hx]. intros y Hy.
      apply str_lt_compare. apply str_lt_compare in Hy.
      eapply compare_lt_trans; eauto.
    + constructor; [apply IH; tauto|].
      apply leb_false in E.
      apply Forall_forall. intros y Hy.
      apply (Permutation_in _ (insert_key_perm k l)) in Hy.
      destruct Hy as [<- | Hy].
      * apply str_lt_compare; exact E.
      * rewrite Forall_forall in Hx. auto.
Qed.

Lemma sort_keys_sorted (l : list str) :
  NoDup l -> StronglySorted str_lt (sort_keys l).
Proof.
  induction 1 as [|x l Hx Hl IH]; simpl; [constructor|].
  apply insert_key_sorted; auto.
  intros H. apply Hx.
  apply (Permutation_in _ (sort_keys_perm l)). exact H.
Qed.

End Keys.

(** ** The aggregation *)

Section Aggregation.

Import PyStrFacts.

Lemma Zsum_map_add {A} (f g : A -> Z) (l : list A) :
  Zsum (map (fun k => f k + g k) l) = Zsum (map f l) + Zsum (map g l).
Proof. induction l as [|k l IH]; simpl; [reflexivity | rewrite IH; ring]. Qed.

Lemma Zsum_indicator_out (c : str) (v : Z) (keys : list str) :
  ~ In c keys ->
  Zsum (map (fun k => if PyStr.eqb c k then v else 0) keys) = 0.
Proof.
  induction keys as [|k keys IH]; simpl; intros H; [reflexivity|].
  destruct (PyStr.eqb c k) eqn:E.
  - apply eqb_eq in E. subst k. tauto.
  - rewrite IH; tauto.
Qed.

Lemma Zsum_indicator_in (c : str) (v : Z) (keys : list str) :
  NoDup keys -> In c keys ->
  Zsum (map (fun k => if PyStr.eqb c k then v else 0) keys) = v.
Proof.
  induction 1 as [|k keys Hk Hn IH]; simpl; intros H; [tauto|].
  destruct (PyStr.eqb c k) eqn:E.
  - apply eqb_eq in E. subst k.
    rewrite Zsum_indicator_out; [ring | assumption].
  - apply eqb_neq in E. rewrite IH; [ring|].
    destruct H; [congruence | assumption].
Qed.

Lemma group_Sales_cons (k : str) (r : Row) (df : DataFrame) :
  Zsum (group_Sales k (r :: df))
  = (if PyStr.eqb (Category r) k then Sales r else 0)
    + Zsum (group_Sales k df).
Proof.
  unfold group_Sales. simpl.
  destruct (PyStr.eqb (Category r) k); reflexivity.
Qed.

(** The groups split the column: over keys without repetition that
    cover the categories of the frame, the sums of the groups add up
    to the sum of the column. *)
Lemma group_Sales_partition (keys : list str) (df : DataFrame) :
  NoDup keys ->
  (forall r, In r df -> In (Category r) keys) ->
  Zsum (map (fun k => Zsum (group_Sales k df)) keys) = Zsum (map Sales df).
Proof.
  intros Hn. induction df as [|r df IH]; intros Hc.
  - clear Hn Hc. induction keys as [|k keys IHk]; simpl; auto.
  - rewrite (map_ext _ _ (fun k => group_Sales_cons k r df)).
    rewrite Zsum_map_add, Zsum_indicator_in, IH.
    + reflexivity.
    + intros r' Hr'. apply Hc. right. exact Hr'.
    + exact Hn.
    + apply Hc. left. reflexivity.
Qed.

Lemma group_Sales_bounds (k : str) (df : DataFrame) :
  Forall (fun r => 0 <= Sales r) df ->
  0 <= Zsum (group_Sales k df) <= Zsum (map Sales df).
Proof.
  induction 1 as [|r df Hr _ IH].
  - simpl. lia.
  - rewrite group_Sales_cons. simpl.
    destruct (PyStr.eqb (Category r) k); lia.
Qed.

Lemma group_keys_NoDup (df : DataFrame) :
  NoDup (sort_keys (unique (map Category df))).
Proof.
  eapply Permutation_NoDup.
  - symmetry. apply sort_keys_perm.
  - apply NoDup_unique.
Qed.

Lemma group_keys_In (df : DataFrame) (k : str) :
  In k (sort_keys (unique (map Category df)))
  <-> exists r, In r df /\ Category r = k.
Proof.
  split.
  - intros H. apply (Permutation_in _ (sort_keys_perm _)) in H.
    apply in_unique, in_map_iff in H.
    destruct H as [r [E Hr]]. eauto.
  - intros [r [Hr E]].
    apply (Permutation_in _ (Permutation_sym (sort_keys_perm _))).
    apply in_unique, in_map_iff. eauto.
Qed.

End Aggregation.

(** C3. The aggregation law.  In the 64-bit arithmetic of the two
    columns, the sum of the totals of the aggregated rows is the sum of
    [Sales] over the frame, for every frame; and where the sales are not
    negative and their sum fits 64 bits, no addition wraps and the two
    sums are equal as integers. *)
Theorem aggregation_law (df : DataFrame) :
  sum64 (map snd (aggregated df)) = sum64 (map Sales df)
  /\ (Forall (fun r => 0 <= Sales r) df ->
      Zsum (map Sales df) < 2 ^ 63 ->
      Zsum (map snd (aggregated df)) = Zsum (map Sales df)).
Proof.
  unfold aggregated, create_dashboard, groupby_Category_Sales_sum; simpl.
  rewrite map_map; simpl.
  assert (HP : Zsum (map (fun k => Zsum (group_Sales k df))
                         (sort_keys (unique (map Category df))))
               = Zsum (map Sales df)).
  { apply group_Sales_partition.
    - apply group_keys_NoDup.
    - intros r Hr. apply group_keys_In. eauto. }
  split.
  - rewrite !sum64_Zsum.
    rewrite (map_ext _ _ (fun k => sum64_Zsum (group_Sales k df))).
    rewrite (wrap64_Zsum_map (fun k => Zsum (group_Sales k df))).
    rewrite HP. reflexivity.
  - intros Hpos Hfit. rewrite <- HP. f_equal.
    apply map_ext. intros k. rewrite sum64_Zsum.
    apply wrap64_small. unfold in_int64.
    pose proof (group_Sales_bounds k df Hpos). lia.
Qed.

Lemma aggregation_law_witness :
  let df := [mk_Row 19358 (lit "Toys") 500 50;
             mk_Row 19361 (lit "Clothing") 300 30;
             mk_Row 19364 (lit "Toys") 120 12] in
  Zsum (map snd (aggregated df)) = Zsum (map Sales df).
Proof.
  intros df.
  apply (proj2 (aggregation_law df)).
  - repeat constructor; simpl; lia.
  - vm_compute. reflexivity.
Defined.

(** C1 (as amended).  The aggregated rows are the groups of the frame by
    [Category], each with the 64-bit sum of the [Sales] of its rows; the
    categories of the bar chart are the categories of these rows, in
    their order and not sorted again; every category of the frame has
    its row, and one row only; and the order of the rows is the
    ascending order of the category names, in which [groupby] returns
    its groups. *)
Theorem aggregated_by_category (df : DataFrame) :
  aggregated df
  = map (fun k => (k, sum64 (group_Sales k df))) (categories_list df)
  /\ categories_list df = map fst (aggregated df)
  /\ (forall k, In k (categories_list df)
                <-> exists r, In r df /\ Category r = k)
  /\ NoDup (categories_list df)
  /\ StronglySorted str_lt (categories_list df).
Proof.
  assert (E : categories_list df = sort_keys (unique (map Category df))).
  { unfold categories_list, create_dashboard, groupby_Category_Sales_sum.
    simpl. rewrite map_map. simpl. apply map_id. }
  split; [|split; [|split; [|split]]].
  - rewrite E. reflexivity.
  - reflexivity.
  - intros k. rewrite E. apply group_keys_In.
  - rewrite E. apply group_keys_NoDup.
  - rewrite E. apply sort_keys_sorted. apply NoDup_unique.
Qed.

(** C1, as stated, fails: the categories of a frame whose first row is
    of category Toys and whose second is of category Clothing come out
    as Clothing, Toys, which is not the order of their first
    appearance. *)
Lemma aggregated_not_in_first_appearance_order :
  let df := [mk_Row 19358 (lit "Toys") 500 50;
             mk_Row 19361 (lit "Clothing") 300 30] in
  unique (map Category df) = [lit "Toys"; lit "Clothing"]
  /\ map fst (aggregated df) = [lit "Clothing"; lit "Toys"]
  /\ categories_list df <> unique (map Category df).
Proof.
  intros df. split; [reflexivity|]. split; [reflexivity|].
  vm_compute. discriminate.
Qed.

(** ** The run *)

Section RunFacts.

Variable R : RandomState.
Hypothesis HR : numpy_contract R.

Ltac reduce_main :=
  cbv [run main main_try main_except bind ret raise log print input
       call_generate_sales_data call_create_dashboard save_report at_try
       stdin rng0 disk0 generate_fault build_fault write_fault
       trace disk rng app PyStr.is_empty].

Lemma run_unfold (W : World R) :
  run R W
  = match main_try R W (at_try R W) with
    | (Return _, st') => (Return tt, st')
    | (Raise e, st') => main_except R e st'
    end.
Proof.
  unfold run, main, bind, print, log. simpl. unfold at_try.
  destruct (main_try R W _) as [[[]|e] st']; reflexivity.
Qed.

Lemma main_except_reports (e : exn) (st : State R) :
  isinstance_Exception e = true ->
  main_except R e st
  = (Return tt,
     mk_State R (trace st ++ [Printed (report_of e)]) (disk st) (rng st)).
Proof.
  unfold main_except, report_of, isinstance_ValueError, isinstance_OSError,
    isinstance_Exception.
  destruct (exn_cls e); intros H; try discriminate; reflexivity.
Qed.

Lemma main_except_escapes (e : exn) (st : State R) :
  isinstance_Exception e = false ->
  main_except R e st = (Raise e, st).
Proof.
  unfold main_except, isinstance_ValueError, isinstance_OSError,
    isinstance_Exception.
  destruct (exn_cls e); intros H; try discriminate; reflexivity.
Qed.

Lemma generate_default_length (s s' : rng_state R) (df : DataFrame) :
  generate_sales_data R default_rows s = (Return df, s') ->
  length df = 100%nat.
Proof.
  intros E.
  destruct (generate_sales_data_returns R HR default_rows s)
    as [df' [s'' [E' [Ed _]]]]; [unfold default_rows, max_rows; lia|].
  rewrite E in E'. inversion E'; subst df' s''.
  rewrite <- (length_map Date df), Ed, length_map, length_seq.
  reflexivity.
Qed.

Lemma generate_default_returns (s : rng_state R) :
  exists df s', generate_sales_data R default_rows s = (Return df, s').
Proof.
  destruct (generate_sales_data_returns R HR default_rows s)
    as [df [s' [E _]]]; [unfold default_rows, max_rows; lia|]. eauto.
Qed.

(** The six ways through the body of the [try]. *)

Lemma try_input_raises (W : World R) (e : exn) :
  stdin W = Raise e ->
  main_try R W (at_try R W)
  = (Raise e, mk_State R [Printed Banner; Prompted] (disk0 W) (rng0 W)).
Proof.
  destruct W as [i r d gf bf wf]. simpl. intros ->. reflexivity.
Qed.

Lemma try_blank (W : World R) (raw : str) :
  stdin W = Return raw ->
  PyStr.strip raw = [] ->
  main_try R W (at_try R W)
  = (Raise empty_filename,
     mk_State R [Printed Banner; Prompted] (disk0 W) (rng0 W)).
Proof.
  destruct W as [i r d gf bf wf]. simpl. intros -> E.
  reduce_main. rewrite E. reflexivity.
Qed.

Lemma try_generate_fault (W : World R) (raw : str) (e : exn) :
  stdin W = Return raw ->
  PyStr.strip raw <> [] ->
  generate_fault W = Some e ->
  main_try R W (at_try R W)
  = (Raise e,
     mk_State R [Printed Banner; Prompted; Printed Step_generate;
                 Called_generate_sales_data default_rows]
              (disk0 W) (rng0 W)).
Proof.
  destruct W as [i r d gf bf wf]. simpl. intros -> Hfn ->.
  reduce_main.
  destruct (PyStr.strip raw) as [|c fn]; [congruence|]. reflexivity.
Qed.

Lemma try_build_fault (W : World R) (raw : str) (e : exn)
      (df : DataFrame) (s' : rng_state R) :
  stdin W = Return raw ->
  PyStr.strip raw <> [] ->
  generate_fault W = None ->
  generate_sales_data R default_rows (rng0 W) = (Return df, s') ->
  build_fault W = Some e ->
  main_try R W (at_try R W)
  = (Raise e,
     mk_State R [Printed Banner; Prompted; Printed Step_generate;
                 Called_generate_sales_data default_rows;
                 Printed Step_build; Called_create_dashboard df]
              (disk0 W) s').
Proof.
  destruct W as [i r d gf bf wf]. simpl. intros -> Hfn -> EG ->.
  reduce_main.
  destruct (PyStr.strip raw) as [|c fn]; [congruence|].
  rewrite EG. reflexivity.
Qed.

Lemma try_write_fault (W : World R) (raw : str) (e : exn)
      (df : DataFrame) (s' : rng_state R) :
  stdin W = Return raw ->
  PyStr.strip raw <> [] ->
  generate_fault W = None ->
  generate_sales_data R default_rows (rng0 W) = (Return df, s') ->
  build_fault W = None ->
  write_fault W (html_filename (PyStr.strip raw)) = Some e ->
  main_try R W (at_try R W)
  = (Raise e,
     mk_State R [Printed Banner; Prompted; Printed Step_generate;
                 Called_generate_sales_data default_rows;
                 Printed Step_build; Called_create_dashboard df;
                 Printed (Step_save (html_filename (PyStr.strip raw)));
                 Called_save_report (create_dashboard df)
                                    (html_filename (PyStr.strip raw))]
              (disk0 W) s').
Proof.
  destruct W as [i r d gf bf wf]. simpl. intros -> Hfn -> EG -> Hw.
  reduce_main.
  destruct (PyStr.strip raw) as [|c fn]; [congruence|].
  rewrite EG. reduce_main. rewrite Hw. reflexivity.
Qed.

Lemma try_success (W : World R) (raw : str)
      (df : DataFrame) (s' : rng_state R) :
  stdin W = Return raw ->
  PyStr.strip raw <> [] ->
  generate_fault W = None ->
  generate_sales_data R default_rows (rng0 W) = (Return df, s') ->
  build_fault W = None ->
  write_fault W (html_filename (PyStr.strip raw)) = None ->
  main_try R W (at_try R W)
  = (Return tt,
     mk_State R [Printed Banner; Prompted; Printed Step_generate;
                 Called_generate_sales_data default_rows;
                 Printed Step_build; Called_create_dashboard df;
                 Printed (Step_save (html_filename (PyStr.strip raw)));
                 Called_save_report (create_dashboard df)
                                    (html_filename (PyStr.strip raw));
                 Printed (Success (html_filename (PyStr.strip raw)))]
              ((html_filename (PyStr.strip raw), create_dashboard df)
                 :: disk0 W) s').
Proof.
  destruct W as [i r d gf bf wf]. simpl. intros -> Hfn -> EG -> Hw.
  reduce_main.
  destruct (PyStr.strip raw) as [|c fn]; [congruence|].
  rewrite EG. reduce_main. rewrite Hw. reflexivity.
Qed.

End RunFacts.

(** C7. When the name typed is empty after [strip], the [ValueError] of
    the empty name is raised and reported as the input-error line, which
    is all that is printed after the banner; no stage is called
    (neither generation, nor building, nor saving), the files are as
    they were, and the run ends normally. *)
Theorem blank_filename_is_input_error
        (R : RandomState) (W : World R) (raw : str) :
  stdin W = Return raw ->
  PyStr.strip raw = [] ->
  raised R W = Some (mk_exn ValueError "Ім'я файлу не може бути порожнім.")
  /\ printed R W
     = [Banner; Input_error "Ім'я файлу не може бути порожнім."]
  /\ (forall ev, In ev (trace (snd (run R W))) -> is_call ev = false)
  /\ disk (snd (run R W)) = disk0 W
  /\ exits_normally R W = true.
Proof.
  intros Hin Hblank.
  pose proof (try_blank R W raw Hin Hblank) as T.
  unfold raised, printed, exits_normally.
  rewrite run_unfold, T. simpl.
  repeat split.
  intros ev [<- | [<- | [<- | []]]]; reflexivity.
Qed.

Lemma blank_filename_is_input_error_witness :
  let W := Build_World LCG.rs (Return (lit "  ")) 0 [] None None
                       (fun _ => None) in
  raised LCG.rs W
  = Some (mk_exn ValueError "Ім'я файлу не може бути порожнім.")
  /\ printed LCG.rs W
     = [Banner; Input_error "Ім'я файлу не може бути порожнім."]
  /\ (forall ev, In ev (trace (snd (run LCG.rs W))) -> is_call ev = false)
  /\ disk (snd (run LCG.rs W)) = disk0 W
  /\ exits_normally LCG.rs W = true.
Proof.
  intros W.
  apply (blank_filename_is_input_error LCG.rs W (lit "  "));
    reflexivity.
Defined.

(** C6. When the name typed is not empty after [strip], and the
    generation and the building raise nothing, [save_report] is called
    with the stripped name itself if it ends with [".html"], and with
    the stripped name followed by [".html"] if it does not. *)
Theorem output_path_has_html_extension
        (R : RandomState) (HR : numpy_contract R)
        (W : World R) (raw : str) :
  stdin W = Return raw ->
  PyStr.strip raw <> [] ->
  generate_fault W = None ->
  build_fault W = None ->
  output_path R W
  = Some (if PyStr.endswith (PyStr.strip raw) (lit ".html")
          then PyStr.strip raw
          else PyStr.strip raw ++ lit ".html").
Proof.
  intros Hin Hfn Hg Hb.
  destruct (generate_default_returns R HR (rng0 W)) as [df [s' EG]].
  assert (Hp : html_filename (PyStr.strip raw)
               = if PyStr.endswith (PyStr.strip raw) (lit ".html")
                 then PyStr.strip raw
                 else PyStr.strip raw ++ lit ".html").
  { unfold html_filename.
    destruct (PyStr.endswith (PyStr.strip raw) (lit ".html")); reflexivity. }
  rewrite <- Hp. unfold output_path. rewrite run_unfold.
  destruct (write_fault W (html_filename (PyStr.strip raw))) as [e|] eqn:Hw.
  - rewrite (try_write_fault R W raw e df s' Hin Hfn Hg EG Hb Hw).
    destruct (isinstance_Exception e) eqn:He.
    + rewrite main_except_reports by exact He. reflexivity.
    + rewrite main_except_escapes by exact He. reflexivity.
  - rewrite (try_success R W raw df s' Hin Hfn Hg EG Hb Hw). reflexivity.
Qed.

Lemma output_path_has_html_extension_witness :
  output_path LCG.rs
    (Build_World LCG.rs (Return (lit "report")) 0 [] None None
                 (fun _ => None))
  = Some (lit "report.html").
Proof.
  apply (output_path_has_html_extension LCG.rs LCGFacts.contract
           (Build_World LCG.rs (Return (lit "report")) 0 [] None None
                        (fun _ => None))
           (lit "report")).
  - reflexivity.
  - vm_compute. discriminate.
  - reflexivity.
  - reflexivity.
Defined.

(** The two names of the scenario of the specification, evaluated. *)
Example output_path_report :
  output_path LCG.rs
    (Build_World LCG.rs (Return (lit "report")) 0 [] None None
                 (fun _ => None))
  = Some (lit "report.html").
Proof. vm_compute. reflexivity. Qed.

Example output_path_report_html :
  output_path LCG.rs
    (Build_World LCG.rs (Return (lit "report.html")) 0 [] None None
                 (fun _ => None))
  = Some (lit "report.html").
Proof. vm_compute. reflexivity. Qed.

Section RunCases.

Variable R : RandomState.
Hypothesis HR : numpy_contract R.

Lemma report_of_is_error_line (e : exn) : is_error_line (report_of e) = true.
Proof. unfold report_of. destruct (exn_cls e); reflexivity. Qed.

(** A run whose [try] raises ends in the state of the raise, with at
    most the line of the report added. *)
Lemma run_of_raise (W : World R) (e : exn) (st : State R) :
  main_try R W (at_try R W) = (Raise e, st) ->
  exists l,
    snd (run R W) = mk_State R (trace st ++ l) (disk st) (rng st)
    /\ (l = [] \/ l = [Printed (report_of e)]).
Proof.
  intros T. rewrite run_unfold, T.
  destruct (isinstance_Exception e) eqn:He.
  - rewrite main_except_reports by exact He.
    exists [Printed (report_of e)]. auto.
  - rewrite main_except_escapes by exact He.
    exists []. rewrite app_nil_r. destruct st; auto.
Qed.

(** Every run either raises in the [try], before the success line and
    with the files untouched, or goes through all the stages. *)
Lemma try_cases (W : World R) :
  exists df s',
    generate_sales_data R default_rows (rng0 W) = (Return df, s')
    /\ ((exists e st,
            main_try R W (at_try R W) = (Raise e, st)
            /\ disk st = disk0 W
            /\ Forall before_success (trace st))
        \/ exists p,
            main_try R W (at_try R W)
            = (Return tt,
               mk_State R
                 [Printed Banner; Prompted; Printed Step_generate;
                  Called_generate_sales_data default_rows;
                  Printed Step_build; Called_create_dashboard df;
                  Printed (Step_save p);
                  Called_save_report (create_dashboard df) p;
                  Printed (Success p)]
                 ((p, create_dashboard df) :: disk0 W) s')).
Proof.
  destruct (generate_default_returns R HR (rng0 W)) as [df [s' EG]].
  exists df, s'. split; [exact EG|].
  destruct (stdin W) as [raw|e] eqn:Hin.
  2:{ left. eexists; eexists. split; [apply try_input_raises; exact Hin|].
      split; [reflexivity|]. repeat constructor. }
  destruct (PyStr.is_empty (PyStr.strip raw)) eqn:Hfn.
  { left. eexists; eexists. split; [eapply try_blank; eauto|].
    - destruct (PyStr.strip raw); [reflexivity | discriminate].
    - split; [reflexivity|]. repeat constructor. }
  assert (Hne : PyStr.strip raw <> []).
  { intros E. rewrite E in Hfn. discriminate. }
  destruct (generate_fault W) as [e|] eqn:Hg.
  { left. eexists; eexists. split; [eapply try_generate_fault; eauto|].
    split; [reflexivity|]. repeat constructor. }
  destruct (build_fault W) as [e|] eqn:Hb.
  { left. eexists; eexists. split; [eapply try_build_fault; eauto|].
    split; [reflexivity|]. repeat constructor. }
  destruct (write_fault W (html_filename (PyStr.strip raw))) as [e|] eqn:Hw.
  { left. eexists; eexists. split; [eapply try_write_fault; eauto|].
    split; [reflexivity|]. repeat constructor. }
  right. eexists. eapply try_success; eauto.
Qed.

End RunCases.

(** C10. [main] calls [generate_sales_data] with no argument, so with
    the default count of 100, whatever is typed: every call of the
    generation in a run has [rows = 100], and a run that succeeds builds
    its report from the frame of [generate_sales_data(100)], of exactly
    100 rows, and writes that report. *)
Theorem main_generates_default_rows
        (R : RandomState) (HR : numpy_contract R) (W : World R) :
  (forall rows,
      In (Called_generate_sales_data rows) (trace (snd (run R W))) ->
      rows = 100)
  /\ (succeeded R W = true ->
      exists df p,
        report_data R W = Some df
        /\ length df = 100%nat
        /\ fst (generate_sales_data R 100 (rng0 W)) = Return df
        /\ disk (snd (run R W)) = (p, create_dashboard df) :: disk0 W).
Proof.
  destruct (try_cases R HR W) as [df [s' [EG [[e [st [T [Hd Hev]]]] | [p T]]]]].
  - destruct (run_of_raise R W e st T) as [l [Hrun Hl]].
    assert (Hall : Forall before_success (trace (snd (run R W)))).
    { rewrite Hrun. simpl. apply Forall_app. split; [exact Hev|].
      destruct Hl as [-> | ->]; repeat constructor.
      simpl. pose proof (report_of_is_error_line e).
      destruct (report_of e); try exact I; discriminate. }
    split.
    + intros rows Hin. rewrite Forall_forall in Hall.
      exact (Hall _ Hin).
    + intros Hs. exfalso. unfold succeeded, printed in Hs.
      apply existsb_exists in Hs. destruct Hs as [ln [Hln Hs]].
      apply in_flat_map in Hln. destruct Hln as [ev [Hev' Hln]].
      rewrite Forall_forall in Hall. specialize (Hall ev Hev').
      destruct ev; simpl in Hln; try contradiction.
      destruct Hln as [<- | []]. destruct l0; try discriminate.
      exact Hall.
  - split.
    + intros rows Hin. rewrite run_unfold, T in Hin. simpl in Hin.
      repeat (destruct Hin as [Hin | Hin]; try discriminate).
      * inversion Hin. reflexivity.
      * contradiction.
    + intros _. exists df, p. unfold report_data.
      rewrite run_unfold, T. simpl.
      split; [reflexivity|]. split; [eapply generate_default_length; eauto|].
      split; [|reflexivity].
      change 100 with default_rows. rewrite EG. reflexivity.
Qed.

Lemma main_generates_default_rows_witness :
  let W := Build_World LCG.rs (Return (lit "report")) 0 [] None None
                       (fun _ => None) in
  succeeded LCG.rs W = true
  /\ exists df p,
      report_data LCG.rs W = Some df
      /\ length df = 100%nat
      /\ fst (generate_sales_data LCG.rs 100 (rng0 W)) = Return df
      /\ disk (snd (run LCG.rs W)) = (p, create_dashboard df) :: disk0 W.
Proof.
  intros W.
  assert (Hs : succeeded LCG.rs W = true) by (vm_compute; reflexivity).
  split; [exact Hs|].
  exact (proj2 (main_generates_default_rows LCG.rs LCGFacts.contract W) Hs).
Defined.

(** C8. Every failure that leaves the body of the [try] (an exception
    of a class derived from [Exception], raised by the input check, the
    generation, the building or the writing) is caught by one of the
    three handlers of [main]: its line is the last one printed and the
    run ends normally, as does a run in which nothing is raised.  The
    failures of the three stages are such exceptions of the [try]; in
    particular an [OSError] of the write is reported by the line of the
    file-system error. *)
Theorem failures_are_reported
        (R : RandomState) (HR : numpy_contract R) (W : World R) :
  (forall e,
      raised R W = Some e ->
      isinstance_Exception e = true ->
      exits_normally R W = true
      /\ is_error_line (report_of e) = true
      /\ exists ls, printed R W = ls ++ [report_of e])
  /\ (raised R W = None -> exits_normally R W = true)
  /\ (forall raw,
         stdin W = Return raw ->
         PyStr.strip raw <> [] ->
         (forall e, generate_fault W = Some e -> raised R W = Some e)
         /\ (forall e,
                generate_fault W = None ->
                build_fault W = Some e ->
                raised R W = Some e)
         /\ (forall e,
                generate_fault W = None ->
                build_fault W = None ->
                write_fault W (html_filename (PyStr.strip raw)) = Some e ->
                raised R W = Some e
                /\ (exn_cls e = OSError ->
                    exits_normally R W = true
                    /\ exists ls,
                        printed R W
                        = ls ++ [Filesystem_error (exn_str e)]))).
Proof.
  assert (Caught : forall e,
             raised R W = Some e ->
             isinstance_Exception e = true ->
             exits_normally R W = true
             /\ is_error_line (report_of e) = true
             /\ exists ls, printed R W = ls ++ [report_of e]).
  { intros e Hr He. unfold raised in Hr.
    unfold exits_normally, printed. rewrite run_unfold.
    destruct (main_try R W (at_try R W)) as [[[]|e'] st]; simpl in Hr;
      [discriminate|]. inversion Hr; subst e'.
    rewrite main_except_reports by exact He. simpl.
    split; [reflexivity|]. split; [apply report_of_is_error_line|].
    rewrite flat_map_app. simpl. eexists. reflexivity. }
  destruct (generate_default_returns R HR (rng0 W)) as [df [s' EG]].
  split; [exact Caught|]. split.
  - intros Hr. unfold raised in Hr. unfold exits_normally.
    rewrite run_unfold.
    destruct (main_try R W (at_try R W)) as [[[]|e'] st]; simpl in Hr;
      [reflexivity | discriminate].
  - intros raw Hin Hfn. split; [|split].
    + intros e Hg. unfold raised.
      rewrite (try_generate_fault R W raw e Hin Hfn Hg). reflexivity.
    + intros e Hg Hb. unfold raised.
      rewrite (try_build_fault R W raw e df s' Hin Hfn Hg EG Hb).
      reflexivity.
    + intros e Hg Hb Hw.
      assert (Hr : raised R W = Some e).
      { unfold raised.
        rewrite (try_write_fault R W raw e df s' Hin Hfn Hg EG Hb Hw).
        reflexivity. }
      split; [exact Hr|]. intros Hc.
      assert (He : isinstance_Exception e = true)
        by (unfold isinstance_Exception; rewrite Hc; reflexivity).
      destruct (Caught e Hr He) as [Hx [_ [ls Hls]]].
      split; [exact Hx|]. exists ls. rewrite Hls.
      unfold report_of. rewrite Hc. reflexivity.
Qed.

Lemma failures_are_reported_witness :
  let W := Build_World LCG.rs (Return (lit "report")) 0 [] None None
                       (fun _ => Some (mk_exn OSError "Permission denied")) in
  exits_normally LCG.rs W = true
  /\ exists ls, printed LCG.rs W = ls ++ [Filesystem_error "Permission denied"].
Proof.
  intros W.
  destruct (failures_are_reported LCG.rs LCGFacts.contract W)
    as [_ [_ H]].
  destruct (H (lit "report")) as [_ [_ Hw]].
  - reflexivity.
  - vm_compute. discriminate.
  - destruct (Hw (mk_exn OSError "Permission denied")) as [_ Hos];
      try reflexivity.
    apply Hos. reflexivity.
Defined.

(** An exception that is not derived from [Exception] (an interrupt
    from the keyboard, for one) is not caught: it leaves [main]. *)
Remark non_Exception_escapes (R : RandomState) (W : World R) (e : exn) :
  raised R W = Some e ->
  isinstance_Exception e = false ->
  exits_normally R W = false.
Proof.
  intros Hr He. unfold raised in Hr. unfold exits_normally.
  rewrite run_unfold.
  destruct (main_try R W (at_try R W)) as [[[]|e'] st]; simpl in Hr;
    [discriminate|]. inversion Hr; subst e'.
  rewrite main_except_escapes by exact He. reflexivity.
Qed.

(* ================================================================= *)
(** * Further properties *)

(** ** Trimming and the file name *)

Module StripFacts.

Import PyStr.

Lemma lstrip_split (s : str) :
  exists sp, s = sp ++ lstrip s /\ forallb isspace sp = true.
Proof.
  induction s as [|c s [sp [E F]]]; simpl.
  - exists []. auto.
  - destruct (isspace c) eqn:Hc.
    + exists (c :: sp). simpl. rewrite Hc, F. split; [f_equal; exact E | auto].
    + exists []. auto.
Qed.

Lemma lstrip_head (s : str) (c : char) (t : str) :
  lstrip s = c :: t -> isspace c = false.
Proof.
  induction s as [|a s IH]; simpl; [discriminate|].
  destruct (isspace a) eqn:Ha; [exact IH|].
  intros H. inversion H; subst. exact Ha.
Qed.

Lemma lstrip_nonspace (c : char) (t : str) :
  isspace c = false -> lstrip (c :: t) = c :: t.
Proof. intros H. simpl. rewrite H. reflexivity. Qed.

Lemma lstrip_idem (s : str) : lstrip (lstrip s) = lstrip s.
Proof.
  destruct (lstrip s) as [|c t] eqn:E; [reflexivity|].
  apply lstrip_nonspace. exact (lstrip_head s c t E).
Qed.

Lemma forallb_rev {A} (f : A -> bool) (l : list A) :
  forallb f l = true -> forallb f (rev l) = true.
Proof.
  rewrite !forallb_forall. intros H x Hx. apply H, in_rev. exact Hx.
Qed.

Lemma rstrip_split (s : str) :
  exists sp, s = rstrip s ++ sp /\ forallb isspace sp = true.
Proof.
  destruct (lstrip_split (rev s)) as [sp [E F]].
  exists (rev sp). split; [|apply forallb_rev; exact F].
  unfold rstrip. rewrite <- rev_app_distr, <- E, rev_involutive. reflexivity.
Qed.

Lemma rstrip_last (s t : str) (c : char) :
  rstrip s = t ++ [c] -> isspace c = false.
Proof.
  unfold rstrip. intros H.
  apply (f_equal (@rev char)) in H.
  rewrite rev_involutive, rev_app_distr in H. simpl in H.
  exact (lstrip_head _ _ _ H).
Qed.

Lemma rstrip_idem (s : str) : rstrip (rstrip s) = rstrip s.
Proof. unfold rstrip. rewrite rev_involutive, lstrip_idem. reflexivity. Qed.

Lemma strip_head (s : str) (c : char) (t : str) :
  strip s = c :: t -> isspace c = false.
Proof.
  unfold strip. intros H.
  destruct (rstrip_split (lstrip s)) as [sp [E _]].
  rewrite H in E. simpl in E.
  exact (lstrip_head s c _ E).
Qed.

Lemma lstrip_strip (s : str) : lstrip (strip s) = strip s.
Proof.
  destruct (strip s) as [|c t] eqn:E; [reflexivity|].
  apply lstrip_nonspace. exact (strip_head s c t E).
Qed.

Lemma strip_idem (s : str) : strip (strip s) = strip s.
Proof.
  unfold strip at 1. rewrite lstrip_strip.
  unfold strip. apply rstrip_idem.
Qed.

End StripFacts.

(** X1. [strip] removes white space at the two ends and nothing else:
    the line is the stripped line between two runs of white space, the
    stripped line neither begins nor ends with white space, and
    stripping again changes nothing. *)
Theorem strip_trims_both_ends (s : str) :
  (exists l r,
      s = l ++ PyStr.strip s ++ r
      /\ forallb PyStr.isspace l = true
      /\ forallb PyStr.isspace r = true)
  /\ (forall c t, PyStr.strip s = c :: t -> PyStr.isspace c = false)
  /\ (forall c t, PyStr.strip s = t ++ [c] -> PyStr.isspace c = false)
  /\ PyStr.strip (PyStr.strip s) = PyStr.strip s.
Proof.
  split; [|split; [|split]].
  - destruct (StripFacts.lstrip_split s) as [l [El Fl]].
    destruct (StripFacts.rstrip_split (PyStr.lstrip s)) as [r [Er Fr]].
    exists l, r. split; [|auto].
    unfold PyStr.strip. rewrite <- Er. exact El.
  - apply StripFacts.strip_head.
  - intros c t. unfold PyStr.strip. apply StripFacts.rstrip_last.
  - apply StripFacts.strip_idem.
Qed.

(** X2. The name that the report is saved under always ends with
    [".html"], is the name itself or the name with [".html"] added, and
    is left as it is when it is given as the name again. *)
Theorem html_filename_fixed_point (user_filename : str) :
  PyStr.endswith (html_filename user_filename) (lit ".html") = true
  /\ (html_filename user_filename = user_filename
      \/ (PyStr.endswith user_filename (lit ".html") = false
          /\ html_filename user_filename = user_filename ++ lit ".html"))
  /\ html_filename (html_filename user_filename)
     = html_filename user_filename.
Proof.
  pose proof (html_filename_endswith user_filename) as H.
  split; [exact H|]. split.
  - unfold html_filename.
    destruct (PyStr.endswith user_filename (lit ".html")); simpl; auto.
  - unfold html_filename at 1. rewrite H. reflexivity.
Qed.

(** X3. White space typed before or after the name plays no part: the
    run on a line is the run on the stripped line. *)
Theorem surrounding_whitespace_ignored
        (R : RandomState) (W : World R) (raw : str) :
  stdin W = Return raw ->
  run R (with_stdin R W (Return (PyStr.strip raw))) = run R W.
Proof.
  destruct W as [i r d gf bf wf]. simpl. intros ->.
  unfold with_stdin. simpl.
  cbv [run main main_try bind log print input stdin rng0 disk0
       generate_fault build_fault write_fault trace disk rng].
  rewrite StripFacts.strip_idem. reflexivity.
Qed.

Lemma surrounding_whitespace_ignored_witness :
  let W := Build_World LCG.rs (Return (lit "  report ")) 0 [] None None
                       (fun _ => None) in
  run LCG.rs (with_stdin LCG.rs W (Return (PyStr.strip (lit "  report "))))
  = run LCG.rs W.
Proof.
  intros W.
  apply (surrounding_whitespace_ignored LCG.rs W (lit "  report ")).
  reflexivity.
Defined.

(** ** More on the aggregation *)

Section AggregationFacts.

Import PyStrFacts.

Lemma Zsum_perm (l l' : list Z) : Permutation l l' -> Zsum l = Zsum l'.
Proof. induction 1; simpl; lia. Qed.

Lemma group_Sales_perm (k : str) (df df' : DataFrame) :
  Permutation df df' -> Zsum (group_Sales k df) = Zsum (group_Sales k df').
Proof.
  induction 1 as [| r l l' _ IH | r r' l | l l' l'' _ IH1 _ IH2].
  - reflexivity.
  - rewrite !group_Sales_cons, IH. reflexivity.
  - rewrite !group_Sales_cons. lia.
  - congruence.
Qed.

(** Two lists in strictly ascending order with the same elements are
    one list. *)
Lemma sorted_keys_unique (l1 : list str) :
  forall l2,
    StronglySorted str_lt l1 -> StronglySorted str_lt l2 ->
    (forall x, In x l1 <-> In x l2) -> l1 = l2.
Proof.
  induction l1 as [|a l1 IH]; intros [|b l2] S1 S2 Hin.
  - reflexivity.
  - exfalso. apply (proj2 (Hin b)). left; reflexivity.
  - exfalso. apply (proj1 (Hin a)). left; reflexivity.
  - inversion S1 as [|? ? S1' F1]; inversion S2 as [|? ? S2' F2]; subst.
    rewrite Forall_forall in F1, F2.
    assert (Hirr : forall x, ~ str_lt x x).
    { intros x H. apply str_lt_compare in H.
      assert (E : PyStr.compare x x = Eq) by (apply compare_eq; reflexivity).
      congruence. }
    assert (Htr : forall x y z, str_lt x y -> str_lt y z -> str_lt x z).
    { intros x y z H1 H2. apply str_lt_compare.
      apply str_lt_compare in H1. apply str_lt_compare in H2.
      eapply compare_lt_trans; eauto. }
    assert (Eab : a = b).
    { destruct (proj1 (Hin a) (or_introl eq_refl)) as [E | Ha]; [auto|].
      destruct (proj2 (Hin b) (or_introl eq_refl)) as [E | Hb]; [auto|].
      exfalso. apply (Hirr a). eapply Htr; [apply F1; exact Hb|].
      apply F2; exact Ha. }
    subst b. f_equal. apply IH; auto.
    intros x. split; intros Hx.
    + destruct (proj1 (Hin x) (or_intror Hx)) as [E | H]; [|exact H].
      subst x. exfalso. apply (Hirr a), F1, Hx.
    + destruct (proj2 (Hin x) (or_intror Hx)) as [E | H]; [|exact H].
      subst x. exfalso. apply (Hirr a), F2, Hx.
Qed.

Lemma aggregated_unfold (df : DataFrame) :
  aggregated df
  = map (fun k => (k, sum64 (group_Sales k df)))
        (sort_keys (unique (map Category df))).
Proof. reflexivity. Qed.

Lemma group_keys_sorted (df : DataFrame) :
  StronglySorted str_lt (sort_keys (unique (map Category df))).
Proof. apply sort_keys_sorted, NoDup_unique. Qed.

Lemma filter_none {A} (f : A -> bool) (l : list A) :
  (forall x, In x l -> f x = false) -> filter f l = [].
Proof.
  induction l as [|x l IH]; simpl; intros H; [reflexivity|].
  rewrite (H x (or_introl eq_refl)). apply IH. auto.
Qed.

Lemma filter_all {A} (f : A -> bool) (l : list A) :
  (forall x, In x l -> f x = true) -> filter f l = l.
Proof.
  induction l as [|x l IH]; simpl; intros H; [reflexivity|].
  rewrite (H x (or_introl eq_refl)). f_equal. apply IH. auto.
Qed.

Lemma unique_constant (c : str) (l : list str) :
  l <> [] -> (forall x, In x l -> x = c) -> unique l = [c].
Proof.
  induction l as [|x l IH]; intros Hne Hall; [congruence|].
  simpl. rewrite (Hall x (or_introl eq_refl)). f_equal.
  apply filter_none. intros y Hy. apply (proj1 (in_unique y l)) in Hy.
  rewrite (Hall y (or_intror Hy)), eqb_refl. reflexivity.
Qed.

Lemma wrap64_range (z : Z) : in_int64 (wrap64 z).
Proof.
  unfold in_int64, wrap64.
  pose proof (Z.mod_pos_bound (z + 2 ^ 63) (2 ^ 64)). lia.
Qed.

Lemma group_Sales_at_least (k : str) (df : DataFrame) (r : Row) (lo : Z) :
  0 <= lo ->
  Forall (fun x => lo <= Sales x) df ->
  In r df -> Category r = k ->
  lo <= Zsum (group_Sales k df).
Proof.
  intros Hlo HF. induction HF as [|x df Hx HF IH]; intros Hin Hk; [contradiction|].
  rewrite group_Sales_cons.
  assert (H0 : 0 <= Zsum (group_Sales k df)).
  { apply group_Sales_bounds. eapply Forall_impl; [|exact HF].
    simpl. intros; lia. }
  destruct Hin as [-> | Hin].
  - rewrite Hk, eqb_refl. lia.
  - specialize (IH Hin Hk). destruct (PyStr.eqb (Category x) k); lia.
Qed.

Lemma Zsum_Sales_bounds (df : DataFrame) :
  Forall Sales_in_range df ->
  100 * Z.of_nat (length df) <= Zsum (map Sales df)
  <= 999 * Z.of_nat (length df).
Proof.
  induction 1 as [|r df Hr _ IH]; [simpl; lia|].
  unfold Sales_in_range in Hr.
  change (Zsum (map Sales (r :: df))) with (Sales r + Zsum (map Sales df)).
  change (length (r :: df)) with (S (length df)). lia.
Qed.

(** Where nothing wraps, the totals are the sums of the groups. *)
Lemma aggregated_exact (df : DataFrame) :
  Forall (fun r => 0 <= Sales r) df ->
  Zsum (map Sales df) < 2 ^ 63 ->
  aggregated df
  = map (fun k => (k, Zsum (group_Sales k df)))
        (sort_keys (unique (map Category df))).
Proof.
  intros Hpos Hfit. rewrite aggregated_unfold.
  apply map_ext. intros k. f_equal. rewrite sum64_Zsum.
  apply wrap64_small. unfold in_int64.
  pose proof (group_Sales_bounds k df Hpos). lia.
Qed.

End AggregationFacts.

(** X4. The aggregated rows do not depend on the order of the rows of
    the frame: two frames with the same rows, in whatever order, have
    the same aggregated rows, so the bar chart is the same whether or
    not the frame was sorted. *)
Theorem aggregated_order_independent (df df' : DataFrame) :
  Permutation df df' -> aggregated df = aggregated df'.
Proof.
  intros HP. rewrite !aggregated_unfold.
  assert (EK : sort_keys (unique (map Category df))
               = sort_keys (unique (map Category df'))).
  { apply sorted_keys_unique; try apply group_keys_sorted.
    intros k. rewrite !group_keys_In.
    split; intros [r [Hr E]]; exists r; split; auto.
    - eapply Permutation_in; eauto.
    - eapply Permutation_in; [symmetry|]; eauto. }
  rewrite EK. apply map_ext. intros k. f_equal.
  rewrite !sum64_Zsum. f_equal. apply group_Sales_perm. exact HP.
Qed.

Lemma aggregated_order_independent_witness :
  aggregated [mk_Row 19358 (lit "Toys") 500 50;
              mk_Row 19361 (lit "Clothing") 300 30]
  = aggregated [mk_Row 19361 (lit "Clothing") 300 30;
                mk_Row 19358 (lit "Toys") 500 50].
Proof.
  apply aggregated_order_independent. apply perm_swap.
Defined.

(** X5. A frame that is not empty and whose rows are all of one
    category has exactly one aggregated row: that category, with the
    64-bit sum of all the sales. *)
Theorem aggregated_single_category (df : DataFrame) (c : str) :
  df <> [] ->
  (forall r, In r df -> Category r = c) ->
  aggregated df = [(c, sum64 (map Sales df))]
  /\ categories_list df = [c].
Proof.
  intros Hne Hall.
  assert (EU : unique (map Category df) = [c]).
  { apply unique_constant.
    - destruct df; [congruence | discriminate].
    - intros x Hx. apply in_map_iff in Hx.
      destruct Hx as [r [<- Hr]]. auto. }
  assert (EA : aggregated df = [(c, sum64 (map Sales df))]).
  { rewrite aggregated_unfold, EU. simpl. unfold group_Sales.
    rewrite filter_all; [reflexivity|].
    intros r Hr. rewrite (Hall r Hr). apply PyStrFacts.eqb_refl. }
  split; [exact EA|].
  change (categories_list df) with (map fst (aggregated df)).
  rewrite EA. reflexivity.
Qed.

Lemma aggregated_single_category_witness :
  let df := [mk_Row 19358 (lit "Toys") 500 50;
             mk_Row 19361 (lit "Toys") 300 30] in
  aggregated df = [(lit "Toys", sum64 (map Sales df))]
  /\ categories_list df = [lit "Toys"].
Proof.
  intros df. apply (aggregated_single_category df (lit "Toys")).
  - discriminate.
  - intros r [<- | [<- | []]]; reflexivity.
Defined.

(** X6. The bar chart has no bar exactly when the frame has no row; it
    never has more bars than the frame has rows; and every total is a
    64-bit value. *)
Theorem aggregated_size (df : DataFrame) :
  (categories_list df = [] <-> df = [])
  /\ (length (aggregated df) <= length df)%nat
  /\ Forall (fun kt => in_int64 (snd kt)) (aggregated df).
Proof.
  split; [|split].
  - change (categories_list df) with (map fst (aggregated df)).
    rewrite aggregated_unfold, map_map. simpl. rewrite map_id.
    split.
    + intros E. destruct df as [|r df]; [reflexivity|]. exfalso.
      assert (H : In (Category r)
                     (sort_keys (unique (map Category (r :: df))))).
      { apply group_keys_In. exists r. simpl. auto. }
      rewrite E in H. exact H.
    + intros ->. reflexivity.
  - rewrite aggregated_unfold, length_map.
    rewrite <- (length_map Category df).
    apply NoDup_incl_length; [apply group_keys_NoDup|].
    intros k Hk. apply group_keys_In in Hk.
    destruct Hk as [r [Hr <-]]. apply in_map. exact Hr.
  - rewrite aggregated_unfold. apply Forall_forall.
    intros kt Hkt. apply in_map_iff in Hkt. destruct Hkt as [k [<- _]].
    simpl. rewrite sum64_Zsum. apply wrap64_range.
Qed.

(** ** More on the sort and on the generation *)

Lemma insert_by_Date_perm (r : Row) (l : list Row) :
  Permutation (insert_by_Date r l) (r :: l).
Proof.
  induction l as [|x l IH]; simpl; auto.
  destruct (Date r <? Date x); auto.
  rewrite IH. apply perm_swap.
Qed.

Lemma insert_by_Date_sorted (r : Row) (l : list Row) :
  StronglySorted Date_le l -> StronglySorted Date_le (insert_by_Date r l).
Proof.
  induction 1 as [|x l Hs IH Hx]; simpl.
  - repeat constructor.
  - destruct (Date r <? Date x) eqn:E.
    + apply Z.ltb_lt in E.
      constructor; [constructor; auto|].
      constructor; [unfold Date_le; lia|].
      eapply Forall_impl; [|exact Hx]. unfold Date_le. intros; lia.
    + apply Z.ltb_ge in E. constructor; [exact IH|].
      apply Forall_forall. intros y Hy.
      apply (Permutation_in _ (insert_by_Date_perm r l)) in Hy.
      destruct Hy as [<- | Hy]; [exact E|].
      rewrite Forall_forall in Hx. auto.
Qed.

Lemma sort_fold_perm (l : list Row) :
  forall acc,
    Permutation (fold_left (fun a r => insert_by_Date r a) l acc) (acc ++ l).
Proof.
  induction l as [|r l IH]; intros acc; simpl.
  - rewrite app_nil_r. reflexivity.
  - rewrite IH, insert_by_Date_perm. simpl. apply Permutation_middle.
Qed.

Lemma sort_fold_sorted (l : list Row) :
  forall acc,
    StronglySorted Date_le acc ->
    StronglySorted Date_le (fold_left (fun a r => insert_by_Date r a) l acc).
Proof.
  induction l as [|r l IH]; intros acc H; simpl; [exact H|].
  apply IH, insert_by_Date_sorted, H.
Qed.

(** Among frames of distinct dates, a frame has one arrangement in
    date order only. *)
Lemma sorted_by_Date_unique (l1 : list Row) :
  forall l2,
    NoDup (map Date l1) ->
    Permutation l1 l2 ->
    StronglySorted Date_le l1 -> StronglySorted Date_le l2 ->
    l1 = l2.
Proof.
  induction l1 as [|a l1 IH]; intros [|b l2] Hn HP S1 S2.
  - reflexivity.
  - apply Permutation_nil in HP. discriminate.
  - apply Permutation_sym, Permutation_nil in HP. discriminate.
  - inversion S1 as [|? ? S1' F1]; inversion S2 as [|? ? S2' F2]; subst.
    inversion Hn as [|? ? Ha Hn']; subst.
    rewrite Forall_forall in F1, F2.
    assert (Eab : a = b).
    { assert (Hb : In b (a :: l1)).
      { apply (Permutation_in _ (Permutation_sym HP)). left; reflexivity. }
      assert (Ha' : In a (b :: l2)).
      { apply (Permutation_in _ HP). left; reflexivity. }
      destruct Hb as [E | Hb]; [exact E|].
      destruct Ha' as [E | Ha']; [symmetry; exact E|].
      exfalso. apply Ha.
      specialize (F1 b Hb). specialize (F2 a Ha'). unfold Date_le in *.
      replace (Date a) with (Date b) by lia.
      apply in_map. exact Hb. }
    subst b. f_equal. apply IH; auto.
    apply (Permutation_cons_inv HP).
Qed.

(** X7. [sort_values('Date')] returns the rows of the frame, all of
    them and no others, in non-decreasing order of [Date]; and for a
    frame of distinct dates that is the only arrangement of its rows in
    date order, so that every way of sorting returns it. *)
Theorem sort_values_Date_sorts (df : DataFrame) :
  Permutation (sort_values_Date df) df
  /\ StronglySorted Date_le (sort_values_Date df)
  /\ (NoDup (map Date df) ->
      forall df',
        Permutation df' df -> StronglySorted Date_le df' ->
        df' = sort_values_Date df).
Proof.
  assert (HP : Permutation (sort_values_Date df) df)
    by (unfold sort_values_Date; apply (sort_fold_perm df [])).
  assert (HS : StronglySorted Date_le (sort_values_Date df))
    by (unfold sort_values_Date; apply sort_fold_sorted; constructor).
  split; [exact HP|]. split; [exact HS|].
  intros Hn df' HP' HS'.
  apply sorted_by_Date_unique; auto.
  - eapply Permutation_NoDup; [|exact Hn].
    apply Permutation_map. symmetry. exact HP'.
  - rewrite HP'. symmetry. exact HP.
Qed.

Lemma sort_values_Date_sorts_witness :
  [mk_Row 19358 (lit "Home") 300 30; mk_Row 19361 (lit "Toys") 500 50]
  = sort_values_Date
      [mk_Row 19361 (lit "Toys") 500 50; mk_Row 19358 (lit "Home") 300 30].
Proof.
  apply (proj2 (proj2 (sort_values_Date_sorts
                         [mk_Row 19361 (lit "Toys") 500 50;
                          mk_Row 19358 (lit "Home") 300 30]))).
  - simpl. repeat constructor; simpl; intuition discriminate.
  - apply perm_swap.
  - repeat constructor; unfold Date_le; simpl; lia.
Defined.

(** X8. Whatever the generator does, a frame that
    [generate_sales_data(rows)] returns is well formed: [rows] is not
    negative, the frame has [rows] rows in date order, and its columns
    are the dates of the range and, row by row, the three draws made in
    the order category, sales, profit from the state of seed 42. *)
Theorem generate_sales_data_columns
        (R : RandomState) (rows : Z) (s s' : rng_state R) (df : DataFrame) :
  generate_sales_data R rows s = (Return df, s') ->
  0 <= rows
  /\ Z.of_nat (length df) = rows
  /\ StronglySorted Date_le df
  /\ map Date df
     = map (fun i => start_2023_01_01 + 3 * Z.of_nat i)
           (seq 0 (Z.to_nat rows))
  /\ exists cats sales profits s1 s2,
      choice R categories rows (seed R 42) = (Return cats, s1)
      /\ randint R 100 1000 rows s1 = (Return sales, s2)
      /\ randint R 10 300 rows s2 = (Return profits, s')
      /\ map Category df = cats
      /\ map Sales df = sales
      /\ map Profit df = profits.
Proof.
  unfold generate_sales_data.
  destruct (date_range start_2023_01_01 rows 3) as [dates0|e] eqn:ED;
    [|discriminate].
  apply date_range_Return in ED. destruct ED as [[Hrows _] ->].
  destruct (choice R categories rows (seed R 42)) as [[cats|e] s1] eqn:EC;
    [|discriminate].
  destruct (randint R 100 1000 rows s1) as [[sales|e] s2] eqn:ES;
    [|discriminate].
  destruct (randint R 10 300 rows s2) as [[profits|e] s3] eqn:EP;
    [|discriminate].
  set (dates := map (fun i => start_2023_01_01 + 3 * Z.of_nat i)
                    (seq 0 (Z.to_nat rows))).
  assert (Ld : length dates = Z.to_nat rows)
    by (unfold dates; rewrite length_map, length_seq; reflexivity).
  unfold mk_DataFrame.
  destruct ((length cats =? length dates)%nat
            && (length sales =? length dates)%nat
            && (length profits =? length dates)%nat) eqn:HL;
    [|discriminate].
  apply andb_true_iff in HL. destruct HL as [HL Lp].
  apply andb_true_iff in HL. destruct HL as [Lc Ls].
  apply Nat.eqb_eq in Lc, Ls, Lp.
  destruct (rows_of_columns_columns dates cats sales profits Lc Ls Lp)
    as [E1 [E2 [E3 E4]]].
  set (df0 := rows_of_columns dates cats sales profits) in *.
  assert (Hsorted : StronglySorted Date_le df0).
  { apply StronglySorted_map_Date. rewrite E1. unfold dates.
    apply arith_seq_sorted. lia. }
  rewrite (sort_values_Date_sorted df0 Hsorted).
  intros H. inversion H; subst df s3. clear H.
  split; [exact Hrows|]. split.
  { rewrite <- (length_map Date df0), E1, Ld. lia. }
  split; [exact Hsorted|]. split; [exact E1|].
  exists cats, sales, profits, s1, s2. repeat split; assumption.
Qed.

Lemma generate_sales_data_columns_witness :
  exists df s',
    generate_sales_data LCG.rs 2 0 = (Return df, s')
    /\ Z.of_nat (length df) = 2
    /\ StronglySorted Date_le df.
Proof.
  destruct (generate_sales_data LCG.rs 2 0) as [[df|e] s'] eqn:E;
    [|vm_compute in E; discriminate].
  exists df, s'. split; [reflexivity|].
  destruct (generate_sales_data_columns LCG.rs 2 0 s' df E)
    as [_ [HL [HS _]]].
  split; [exact HL | exact HS].
Defined.

(** X9. The bar chart of a generated frame.  A frame is returned for
    every count from 0 to 29132; and every frame that
    [generate_sales_data(rows)] returns has at most six aggregated rows,
    each for one of the six categories and with a total of at least 100
    and at most 999 a row; no sum wraps, so that the totals add up
    exactly to the sum of the sales, which lies between 100 and 999
    times [rows]. *)
Theorem generated_bar_chart
        (R : RandomState) (HR : numpy_contract R)
        (rows : Z) (s : rng_state R) :
  0 <= rows ->
  (rows <= 29132 ->
   exists df, fst (generate_sales_data R rows s) = Return df)
  /\ (forall df,
         fst (generate_sales_data R rows s) = Return df ->
         (length (aggregated df) <= 6)%nat
         /\ (forall k t, In (k, t) (aggregated df) ->
                         In k categories /\ 100 <= t <= 999 * rows)
         /\ Zsum (map snd (aggregated df)) = Zsum (map Sales df)
         /\ 100 * rows <= Zsum (map Sales df) <= 999 * rows).
Proof.
  intros Hrows. split.
  { intros Hmax.
    destruct (generate_sales_data_returns R HR rows s)
      as [df [s' [E _]]]; [unfold max_rows; lia|].
    exists df. rewrite E. reflexivity. }
  intros df Hdf.
  pose proof (generate_sales_data_defined R rows s df Hdf) as Hr.
  destruct (generate_sales_data_returns R HR rows s Hr)
    as [df' [s' [E [Ed [Fc [Fs _]]]]]].
  rewrite E in Hdf. simpl in Hdf. inversion Hdf; subst df'. clear Hdf.
  assert (Hfit : 1000 * rows < 2 ^ 63) by (unfold max_rows in Hr; lia).
  assert (HL : Z.of_nat (length df) = rows).
  { rewrite <- (length_map Date df), Ed, length_map, length_seq. lia. }
  pose proof (Zsum_Sales_bounds df Fs) as HB. rewrite HL in HB.
  assert (Hpos : Forall (fun r => 0 <= Sales r) df).
  { eapply Forall_impl; [|exact Fs]. unfold Sales_in_range. intros; lia. }
  assert (Hlo : Forall (fun r => 100 <= Sales r) df).
  { eapply Forall_impl; [|exact Fs]. unfold Sales_in_range. intros; lia. }
  assert (EA := aggregated_exact df Hpos ltac:(lia)).
  assert (Hkeys : forall k, In k (sort_keys (unique (map Category df))) ->
                            In k categories).
  { intros k Hk. apply group_keys_In in Hk. destruct Hk as [r [Hr' <-]].
    rewrite Forall_forall in Fc. auto. }
  split; [|split; [|split]].
  - rewrite EA, length_map.
    change 6%nat with (length categories).
    apply NoDup_incl_length; [apply group_keys_NoDup | exact Hkeys].
  - intros k t Hkt. rewrite EA in Hkt. apply in_map_iff in Hkt.
    destruct Hkt as [k' [Ek Hk]]. inversion Ek; subst k' t.
    split; [auto|].
    pose proof (group_Sales_bounds k df Hpos).
    destruct (proj1 (group_keys_In df k) Hk) as [r [Hr' Hc]].
    pose proof (group_Sales_at_least k df r 100 ltac:(lia) Hlo Hr' Hc).
    lia.
  - rewrite EA, map_map. simpl.
    apply group_Sales_partition; [apply group_keys_NoDup|].
    intros r Hr'. apply group_keys_In. eauto.
  - exact HB.
Qed.

Lemma generated_bar_chart_witness :
  exists df,
    fst (generate_sales_data LCG.rs 100 0) = Return df
    /\ (length (aggregated df) <= 6)%nat
    /\ (forall k t, In (k, t) (aggregated df) ->
                    In k categories /\ 100 <= t <= 999 * 100)
    /\ Zsum (map snd (aggregated df)) = Zsum (map Sales df)
    /\ 100 * 100 <= Zsum (map Sales df) <= 999 * 100.
Proof.
  destruct (generated_bar_chart LCG.rs LCGFacts.contract 100 0 ltac:(lia))
    as [Hret Hall].
  destruct (Hret ltac:(lia)) as [df Hdf].
  exists df. split; [exact Hdf|]. exact (Hall df Hdf).
Defined.

(** ** More on the run *)

Section RunWays.

Variable R : RandomState.
Hypothesis HR : numpy_contract R.

(** The run, from what leaves the body of the [try]. *)
Lemma run_of_try (W : World R) (oe : option exn) (st : State R) :
  main_try R W (at_try R W)
  = (match oe with Some e => Raise e | None => Return tt end, st) ->
  run R W
  = match oe with
    | None => (Return tt, st)
    | Some e =>
        if isinstance_Exception e
        then (Return tt,
              mk_State R (trace st ++ [Printed (report_of e)])
                       (disk st) (rng st))
        else (Raise e, st)
    end.
Proof.
  intros T. rewrite run_unfold, T. destruct oe as [e|]; [|reflexivity].
  destruct (isinstance_Exception e) eqn:He.
  - apply main_except_reports. exact He.
  - apply main_except_escapes. exact He.
Qed.

(** The ways through the body of the [try]: it is left after 2, 4, 6 or
    8 of the events of a full run, by an exception, or after all 9. *)
Lemma run_ways (W : World R) :
  exists df s' k oe p dk rg,
    generate_sales_data R default_rows (rng0 W) = (Return df, s')
    /\ main_try R W (at_try R W)
       = (match oe with Some e => Raise e | None => Return tt end,
          mk_State R (firstn k (stage_events df p)) dk rg)
    /\ ((k = 2%nat /\ dk = disk0 W
         /\ exists e, oe = Some e
                      /\ (stdin W = Raise e
                          \/ exists raw, stdin W = Return raw
                                         /\ PyStr.strip raw = []
                                         /\ e = empty_filename))
        \/ exists raw,
            stdin W = Return raw /\ PyStr.strip raw <> []
            /\ p = html_filename (PyStr.strip raw)
            /\ ((k = 4%nat /\ dk = disk0 W
                 /\ exists e, oe = Some e /\ generate_fault W = Some e)
                \/ (k = 6%nat /\ dk = disk0 W
                    /\ generate_fault W = None
                    /\ exists e, oe = Some e /\ build_fault W = Some e)
                \/ (k = 8%nat /\ dk = disk0 W
                    /\ generate_fault W = None /\ build_fault W = None
                    /\ exists e, oe = Some e /\ write_fault W p = Some e)
                \/ (k = 9%nat /\ dk = (p, create_dashboard df) :: disk0 W
                    /\ generate_fault W = None /\ build_fault W = None
                    /\ write_fault W p = None /\ oe = None))).
Proof.
  destruct (generate_default_returns R HR (rng0 W)) as [df [s' EG]].
  exists df, s'.
  destruct (stdin W) as [raw|e] eqn:Hin.
  2:{ exists 2%nat, (Some e), [], (disk0 W), (rng0 W).
      split; [exact EG|]. split; [apply try_input_raises; exact Hin|].
      left. repeat split. exists e. auto. }
  destruct (PyStr.is_empty (PyStr.strip raw)) eqn:Hfn.
  { assert (E : PyStr.strip raw = [])
      by (destruct (PyStr.strip raw); [reflexivity | discriminate]).
    exists 2%nat, (Some empty_filename), [], (disk0 W), (rng0 W).
    split; [exact EG|]. split; [eapply try_blank; eauto|].
    left. repeat split. exists empty_filename. split; [reflexivity|].
    right. exists raw. auto. }
  assert (Hne : PyStr.strip raw <> []).
  { intros E. rewrite E in Hfn. discriminate. }
  set (p := html_filename (PyStr.strip raw)).
  destruct (generate_fault W) as [e|] eqn:Hg.
  { exists 4%nat, (Some e), p, (disk0 W), (rng0 W).
    split; [exact EG|]. split; [eapply try_generate_fault; eauto|].
    right. exists raw. repeat split; auto. left. repeat split. eauto. }
  destruct (build_fault W) as [e|] eqn:Hb.
  { exists 6%nat, (Some e), p, (disk0 W), s'.
    split; [exact EG|]. split; [eapply try_build_fault; eauto|].
    right. exists raw. repeat split; auto.
    right; left. repeat split. eauto. }
  destruct (write_fault W p) as [e|] eqn:Hw.
  { exists 8%nat, (Some e), p, (disk0 W), s'.
    split; [exact EG|]. split; [eapply try_write_fault; eauto|].
    right. exists raw. repeat split; auto.
    right; right; left. repeat split. eauto. }
  exists 9%nat, None, p, ((p, create_dashboard df) :: disk0 W), s'.
  split; [exact EG|]. split; [eapply try_success; eauto|].
  right. exists raw. repeat split; auto.
  right; right; right. repeat split; auto.
Qed.

End RunWays.

(** X10. Every run is a straight line: its events are the first [k]
    of the nine events of a full run (banner, prompt, step 1,
    generation, step 2, building, step 3, saving, success) followed by
    at most one line, the report of an error; the generation, where it
    is reached, is the one of the default count; and the run succeeds
    exactly when all nine events are there, with no error line. *)
Theorem run_is_linear
        (R : RandomState) (HR : numpy_contract R) (W : World R) :
  exists df p k tail,
    fst (generate_sales_data R 100 (rng0 W)) = Return df
    /\ trace (snd (run R W)) = firstn k (stage_events df p) ++ tail
    /\ (2 <= k <= 9)%nat
    /\ (tail = [] \/ exists l, is_error_line l = true /\ tail = [Printed l])
    /\ (succeeded R W = true <-> k = 9%nat)
    /\ (k = 9%nat -> tail = []).
Proof.
  destruct (run_ways R HR W)
    as (df & s' & k & oe & p & dk & rg & EG & T & Hway).
  pose proof (run_of_try R W oe _ T) as Hrun.
  assert (Hgen : fst (generate_sales_data R 100 (rng0 W)) = Return df).
  { change 100 with default_rows. rewrite EG. reflexivity. }
  assert (Hfail : forall e, oe = Some e -> (k = 2 \/ k = 4 \/ k = 6 \/ k = 8)%nat ->
            exists tail,
              trace (snd (run R W)) = firstn k (stage_events df p) ++ tail
              /\ (tail = [] \/ exists l, is_error_line l = true
                                         /\ tail = [Printed l])
              /\ succeeded R W = false).
  { intros e -> Hk. unfold succeeded, printed. rewrite Hrun.
    destruct (isinstance_Exception e).
    - exists [Printed (report_of e)]. split; [reflexivity|].
      split; [right; eexists; split;
              [apply report_of_is_error_line | reflexivity]|].
      simpl. rewrite flat_map_app, existsb_app. simpl.
      pose proof (report_of_is_error_line e) as Hl.
      destruct (report_of e); try discriminate;
        destruct Hk as [-> | [-> | [-> | ->]]]; reflexivity.
    - exists []. split; [simpl; rewrite app_nil_r; reflexivity|].
      split; [left; reflexivity|].
      simpl. destruct Hk as [-> | [-> | [-> | ->]]]; reflexivity. }
  exists df, p, k.
  destruct Hway as [(-> & _ & e & -> & _) | (raw & _ & _ & _ & Hw)].
  { destruct (Hfail e eq_refl) as (tail & Ht & Hs & Hn); [auto|].
    exists tail. repeat split; auto; try lia;
      try (intros Hx; rewrite Hn in Hx; discriminate);
      try (intros Hx; discriminate). }
  destruct Hw as [(-> & _ & e & -> & _)
                 | [(-> & _ & _ & e & -> & _)
                   | [(-> & _ & _ & _ & e & -> & _)
                     | (-> & _ & _ & _ & _ & ->)]]].
  1-3: destruct (Hfail e eq_refl) as (tail & Ht & Hs & Hn); [auto|];
       exists tail; repeat split; auto; try lia;
       try (intros Hx; rewrite Hn in Hx; discriminate);
       try (intros Hx; discriminate).
  exists []. unfold succeeded, printed. rewrite Hrun. simpl.
  repeat split; auto; lia.
Qed.

Lemma run_is_linear_witness :
  let W := Build_World LCG.rs (Return (lit "report")) 0 [] None
                       (Some (mk_exn OtherException "MemoryError"))
                       (fun _ => None) in
  exists df p k tail,
    fst (generate_sales_data LCG.rs 100 (rng0 W)) = Return df
    /\ trace (snd (run LCG.rs W)) = firstn k (stage_events df p) ++ tail
    /\ (2 <= k <= 9)%nat
    /\ (tail = [] \/ exists l, is_error_line l = true /\ tail = [Printed l])
    /\ (succeeded LCG.rs W = true <-> k = 9%nat)
    /\ (k = 9%nat -> tail = []).
Proof.
  intros W. exact (run_is_linear LCG.rs LCGFacts.contract W).
Defined.

Lemma In_firstn {A} (x : A) (k : nat) (l : list A) :
  In x (firstn k l) -> In x l.
Proof.
  intros H. rewrite <- (firstn_skipn k l). apply in_or_app. left. exact H.
Qed.

(** X11. Whatever [save_report] is called with comes from the stages
    before it: the name is the stripped line, with [".html"] at its end,
    and the layout is the dashboard of the frame of 100 rows that the
    generation returned; and neither of the two stages before it
    failed. *)
Theorem saved_report_provenance
        (R : RandomState) (HR : numpy_contract R) (W : World R)
        (layout : Layout) (path : str) :
  In (Called_save_report layout path) (trace (snd (run R W))) ->
  exists raw df,
    stdin W = Return raw
    /\ PyStr.strip raw <> []
    /\ path = html_filename (PyStr.strip raw)
    /\ PyStr.endswith path (lit ".html") = true
    /\ generate_fault W = None
    /\ build_fault W = None
    /\ fst (generate_sales_data R 100 (rng0 W)) = Return df
    /\ length df = 100%nat
    /\ layout = create_dashboard df.
Proof.
  destruct (run_ways R HR W)
    as (df & s' & k & oe & p & dk & rg & EG & T & Hway).
  pose proof (run_of_try R W oe _ T) as Hrun.
  intros Hin.
  assert (Hev : In (Called_save_report layout path)
                   (firstn k (stage_events df p))).
  { rewrite Hrun in Hin. destruct oe as [e|]; [|exact Hin].
    destruct (isinstance_Exception e); [|exact Hin].
    simpl in Hin. apply in_app_or in Hin.
    destruct Hin as [Hin | [Hin | []]]; [exact Hin | discriminate]. }
  assert (Hlp : layout = create_dashboard df /\ path = p).
  { apply In_firstn in Hev. simpl in Hev.
    repeat (destruct Hev as [Hev | Hev]; try discriminate);
      [inversion Hev; auto | contradiction]. }
  destruct Hlp as [-> ->].
  destruct Hway as [(-> & _) | (raw & Hraw & Hne & Hp & Hw)].
  { exfalso. simpl in Hev.
    repeat (destruct Hev as [Hev | Hev]; try discriminate). exact Hev. }
  assert (Hgb : generate_fault W = None /\ build_fault W = None).
  { destruct Hw as [(-> & _) | [(-> & _) | [(_ & _ & Hg & Hb & _)
                                           | (_ & _ & Hg & Hb & _)]]];
      auto; exfalso; simpl in Hev;
      repeat (destruct Hev as [Hev | Hev]; try discriminate); exact Hev. }
  exists raw, df. destruct Hgb as [Hg Hb].
  repeat split; auto.
  - rewrite Hp. apply html_filename_endswith.
  - change 100 with default_rows. rewrite EG. reflexivity.
  - eapply generate_default_length; eauto.
Qed.

Lemma saved_report_provenance_witness :
  let W := Build_World LCG.rs (Return (lit " report ")) 0 [] None None
                       (fun _ => None) in
  exists raw df,
    stdin W = Return raw
    /\ PyStr.strip raw <> []
    /\ lit "report.html" = html_filename (PyStr.strip raw)
    /\ PyStr.endswith (lit "report.html") (lit ".html") = true
    /\ generate_fault W = None
    /\ build_fault W = None
    /\ fst (generate_sales_data LCG.rs 100 (rng0 W)) = Return df
    /\ length df = 100%nat
    /\ create_dashboard
         (match fst (generate_sales_data LCG.rs 100 0) with
          | Return d => d
          | Raise _ => []
          end)
       = create_dashboard df.
Proof.
  intros W.
  apply (saved_report_provenance LCG.rs LCGFacts.contract W).
  vm_compute. do 7 right. left. reflexivity.
Defined.

(** X12. A run that fails before the saving leaves the files alone:
    when [input] raises, or the name is empty after [strip], or the
    generation or the building fails, [save_report] is not called, the
    files are as they were, and the success line is not printed. *)
Theorem early_failure_writes_nothing
        (R : RandomState) (HR : numpy_contract R) (W : World R) :
  ((exists e, stdin W = Raise e)
   \/ (exists raw, stdin W = Return raw /\ PyStr.strip raw = [])
   \/ generate_fault W <> None
   \/ build_fault W <> None) ->
  (forall layout path,
      ~ In (Called_save_report layout path) (trace (snd (run R W))))
  /\ disk (snd (run R W)) = disk0 W
  /\ succeeded R W = false.
Proof.
  intros Hearly.
  destruct (run_ways R HR W)
    as (df & s' & k & oe & p & dk & rg & EG & T & Hway).
  pose proof (run_of_try R W oe _ T) as Hrun.
  assert (Hk : exists e, oe = Some e /\ dk = disk0 W
                         /\ (k = 2 \/ k = 4 \/ k = 6)%nat).
  { destruct Hway as [(-> & -> & e & -> & _) | (raw & Hraw & Hne & _ & Hw)].
    { exists e. auto. }
    assert (Hgb : generate_fault W <> None \/ build_fault W <> None).
    { destruct Hearly as [[e He] | [[raw' [Hr' Hb']] | [H | H]]]; auto.
      - rewrite Hraw in He. discriminate.
      - rewrite Hraw in Hr'. inversion Hr'; subst raw'. contradiction. }
    destruct Hw as [(-> & -> & e & -> & _)
                   | [(-> & -> & _ & e & -> & _)
                     | [(_ & _ & Hg & Hb & _) | (_ & _ & Hg & Hb & _)]]].
    - exists e. auto.
    - exists e. auto.
    - exfalso. destruct Hgb; contradiction.
    - exfalso. destruct Hgb; contradiction. }
  destruct Hk as (e & -> & -> & Hk).
  unfold succeeded, printed. rewrite Hrun.
  pose proof (report_of_is_error_line e) as Hl.
  destruct (isinstance_Exception e); simpl;
    (split; [|split; [reflexivity|]]).
  - intros layout path Hin. apply in_app_or in Hin.
    destruct Hin as [Hin | [Hin | []]]; [|discriminate].
    destruct Hk as [-> | [-> | ->]]; simpl in Hin;
      repeat (destruct Hin as [Hin | Hin]; try discriminate); exact Hin.
  - rewrite flat_map_app, existsb_app. simpl.
    destruct (report_of e); try discriminate;
      destruct Hk as [-> | [-> | ->]]; reflexivity.
  - intros layout path Hin.
    destruct Hk as [-> | [-> | ->]]; simpl in Hin;
      repeat (destruct Hin as [Hin | Hin]; try discriminate); exact Hin.
  - destruct Hk as [-> | [-> | ->]]; reflexivity.
Qed.

Lemma early_failure_writes_nothing_witness :
  let W := Build_World LCG.rs (Return (lit "report")) 0 []
                       (Some (mk_exn OtherException "MemoryError")) None
                       (fun _ => None) in
  (forall layout path,
      ~ In (Called_save_report layout path) (trace (snd (run LCG.rs W))))
  /\ disk (snd (run LCG.rs W)) = disk0 W
  /\ succeeded LCG.rs W = false.
Proof.
  intros W.
  apply (early_failure_writes_nothing LCG.rs LCGFacts.contract W).
  right; right; left. discriminate.
Defined.

(** X13. A run succeeds exactly when nothing is raised in the [try];
    it then prints the banner, the three steps and the success line,
    with one file name in the last two, no error line, and ends
    normally. *)
Theorem success_iff_nothing_raised
        (R : RandomState) (HR : numpy_contract R) (W : World R) :
  (succeeded R W = true <-> raised R W = None)
  /\ (succeeded R W = true ->
      exits_normally R W = true
      /\ (forall l, In l (printed R W) -> is_error_line l = false)
      /\ exists p,
          PyStr.endswith p (lit ".html") = true
          /\ printed R W
             = [Banner; Step_generate; Step_build; Step_save p; Success p]).
Proof.
  destruct (run_ways R HR W)
    as (df & s' & k & oe & p & dk & rg & EG & T & Hway).
  pose proof (run_of_try R W oe _ T) as Hrun.
  assert (Hr : raised R W = oe).
  { unfold raised. rewrite T. destruct oe; reflexivity. }
  assert (Hcases : (exists e, oe = Some e /\ succeeded R W = false)
                   \/ (oe = None /\ k = 9%nat
                       /\ PyStr.endswith p (lit ".html") = true)).
  { assert (Hfail : forall e, oe = Some e ->
                              (k = 2 \/ k = 4 \/ k = 6 \/ k = 8)%nat ->
                              succeeded R W = false).
    { intros e -> Hk. unfold succeeded, printed. rewrite Hrun.
      pose proof (report_of_is_error_line e) as Hl.
      destruct (isinstance_Exception e); simpl.
      - rewrite flat_map_app, existsb_app. simpl.
        destruct (report_of e); try discriminate;
          destruct Hk as [-> | [-> | [-> | ->]]]; reflexivity.
      - destruct Hk as [-> | [-> | [-> | ->]]]; reflexivity. }
    destruct Hway as [(-> & _ & e & -> & _) | (raw & _ & _ & Hp & Hw)].
    { left. exists e. split; [reflexivity|]. eapply Hfail; eauto. }
    destruct Hw as [(-> & _ & e & -> & _)
                   | [(-> & _ & _ & e & -> & _)
                     | [(-> & _ & _ & _ & e & -> & _)
                       | (-> & _ & _ & _ & _ & ->)]]].
    1-3: left; exists e; split; [reflexivity|]; eapply Hfail; eauto; tauto.
    right. repeat split. rewrite Hp. apply html_filename_endswith. }
  rewrite Hr.
  destruct Hcases as [(e & -> & Hs) | (-> & -> & Hp)].
  - rewrite Hs. split; [split; discriminate | discriminate].
  - assert (Hpr : printed R W
                  = [Banner; Step_generate; Step_build; Step_save p;
                     Success p]).
    { unfold printed. rewrite Hrun. reflexivity. }
    assert (Hs : succeeded R W = true).
    { unfold succeeded. rewrite Hpr. reflexivity. }
    split; [split; auto|]. intros _.
    split; [unfold exits_normally; rewrite Hrun; reflexivity|].
    split; [|exists p; auto].
    intros l Hl. rewrite Hpr in Hl. simpl in Hl.
    repeat (destruct Hl as [<- | Hl]; [reflexivity|]). contradiction.
Qed.

Lemma success_iff_nothing_raised_witness :
  let W := Build_World LCG.rs (Return (lit "report")) 0 [] None None
                       (fun _ => None) in
  exits_normally LCG.rs W = true
  /\ (forall l, In l (printed LCG.rs W) -> is_error_line l = false)
  /\ exists p,
      PyStr.endswith p (lit ".html") = true
      /\ printed LCG.rs W
         = [Banner; Step_generate; Step_build; Step_save p; Success p].
Proof.
  intros W.
  apply (proj2 (success_iff_nothing_raised LCG.rs LCGFacts.contract W)).
  vm_compute. reflexivity.
Defined.

(** X14. The first handler wins: an exception of the [try] that is a
    [ValueError] is reported by the input-error line, also when a stage
    raised it and not the check of the name, and also when it is an
    [OSError] as well; no file-system line is printed for it. *)
Theorem ValueError_is_reported_as_input_error
        (R : RandomState) (HR : numpy_contract R) (W : World R) (e : exn) :
  raised R W = Some e ->
  isinstance_ValueError e = true ->
  exits_normally R W = true
  /\ exists ls,
      printed R W = ls ++ [Input_error (exn_str e)]
      /\ forall l, In l ls -> is_error_line l = false.
Proof.
  intros Hr Hv.
  destruct (run_ways R HR W)
    as (df & s' & k & oe & p & dk & rg & EG & T & _).
  pose proof (run_of_try R W oe _ T) as Hrun.
  assert (Hoe : oe = Some e).
  { unfold raised in Hr. rewrite T in Hr. destruct oe; simpl in Hr;
      congruence. }
  subst oe.
  assert (He : isinstance_Exception e = true /\
               report_of e = Input_error (exn_str e)).
  { unfold isinstance_ValueError in Hv.
    unfold isinstance_Exception, report_of.
    destruct (exn_cls e); try discriminate; auto. }
  destruct He as [He Hrep]. rewrite He in Hrun.
  unfold exits_normally, printed. rewrite Hrun. simpl.
  split; [reflexivity|].
  rewrite flat_map_app. simpl. rewrite Hrep.
  eexists. split; [reflexivity|].
  intros l Hl. apply in_flat_map in Hl. destruct Hl as [ev [Hev Hl]].
  apply In_firstn in Hev. simpl in Hev.
  repeat (destruct Hev as [<- | Hev];
          [simpl in Hl; try contradiction;
           destruct Hl as [<- | []]; reflexivity|]).
  contradiction.
Qed.

Lemma ValueError_is_reported_as_input_error_witness :
  let e := mk_exn ValueError_and_OSError "not writable" in
  let W := Build_World LCG.rs (Return (lit "report")) 0 [] None None
                       (fun _ => Some e) in
  exits_normally LCG.rs W = true
  /\ exists ls,
      printed LCG.rs W = ls ++ [Input_error "not writable"]
      /\ forall l, In l ls -> is_error_line l = false.
Proof.
  intros e W.
  apply (ValueError_is_reported_as_input_error LCG.rs LCGFacts.contract
           W e).
  - vm_compute. reflexivity.
  - reflexivity.
Defined.

(** X15. When [input] itself raises (at the end of the input, or on an
    interrupt), no stage is called and the files are as they were; an
    exception derived from [Exception] is reported by its line after the
    banner and the run ends normally, and any other leaves [main] with
    the banner alone printed. *)
Theorem input_failure_calls_no_stage
        (R : RandomState) (W : World R) (e : exn) :
  stdin W = Raise e ->
  calls R W = []
  /\ disk (snd (run R W)) = disk0 W
  /\ (isinstance_Exception e = true ->
      printed R W = [Banner; report_of e] /\ exits_normally R W = true)
  /\ (isinstance_Exception e = false ->
      printed R W = [Banner] /\ exits_normally R W = false).
Proof.
  intros Hin. pose proof (try_input_raises R W e Hin) as T.
  unfold calls, printed, exits_normally. rewrite run_unfold, T.
  destruct (isinstance_Exception e) eqn:He.
  - rewrite main_except_reports by exact He. simpl.
    split; [reflexivity|]. split; [reflexivity|].
    split; intros H; [split; reflexivity | discriminate].
  - rewrite main_except_escapes by exact He. simpl.
    split; [reflexivity|]. split; [reflexivity|].
    split; intros H; [discriminate | split; reflexivity].
Qed.

Lemma input_failure_calls_no_stage_witness :
  let e := mk_exn OtherException "EOF when reading a line" in
  let W := Build_World LCG.rs (Raise e) 0 [] None None (fun _ => None) in
  calls LCG.rs W = []
  /\ disk (snd (run LCG.rs W)) = disk0 W
  /\ (isinstance_Exception e = true ->
      printed LCG.rs W = [Banner; report_of e]
      /\ exits_normally LCG.rs W = true)
  /\ (isinstance_Exception e = false ->
      printed LCG.rs W = [Banner] /\ exits_normally LCG.rs W = false).
Proof.
  intros e W.
  apply (input_failure_calls_no_stage LCG.rs W e). reflexivity.
Defined.

(** X16. A run in which nothing fails writes one file: the report can
    be read back at its name, in the place of whatever was there, and
    every file of another name is as it was. *)
Theorem successful_run_writes_one_file
        (R : RandomState) (HR : numpy_contract R)
        (W : World R) (raw : str) :
  stdin W = Return raw ->
  PyStr.strip raw <> [] ->
  generate_fault W = None ->
  build_fault W = None ->
  write_fault W (html_filename (PyStr.strip raw)) = None ->
  exists df,
    fst (generate_sales_data R 100 (rng0 W)) = Return df
    /\ read_file (disk (snd (run R W))) (html_filename (PyStr.strip raw))
       = Some (create_dashboard df)
    /\ forall q,
        q <> html_filename (PyStr.strip raw) ->
        read_file (disk (snd (run R W))) q = read_file (disk0 W) q.
Proof.
  intros Hin Hne Hg Hb Hw.
  destruct (generate_default_returns R HR (rng0 W)) as [df [s' EG]].
  exists df. split.
  { change 100 with default_rows. rewrite EG. reflexivity. }
  rewrite run_unfold, (try_success R W raw df s' Hin Hne Hg EG Hb Hw).
  simpl. unfold read_file. simpl. split.
  - rewrite PyStrFacts.eqb_refl. reflexivity.
  - intros q Hq.
    destruct (PyStr.eqb (html_filename (PyStr.strip raw)) q) eqn:E;
      [|reflexivity].
    apply PyStrFacts.eqb_eq in E. congruence.
Qed.

Lemma successful_run_writes_one_file_witness :
  let W := Build_World LCG.rs (Return (lit "report")) 0 [] None None
                       (fun _ => None) in
  exists df,
    fst (generate_sales_data LCG.rs 100 (rng0 W)) = Return df
    /\ read_file (disk (snd (run LCG.rs W)))
                 (html_filename (PyStr.strip (lit "report")))
       = Some (create_dashboard df)
    /\ forall q,
        q <> html_filename (PyStr.strip (lit "report")) ->
        read_file (disk (snd (run LCG.rs W))) q = read_file (disk0 W) q.
Proof.
  intros W.
  apply (successful_run_writes_one_file LCG.rs LCGFacts.contract W
           (lit "report")); try reflexivity.
  vm_compute. discriminate.
Defined.
